(** * call-backend: device registry and call-log ingestion

    A shallow embedding of the two Express servers of the repository:
    [src/server.js], which keeps its records in MongoDB through Mongoose,
    and the second server file, which keeps them in SQLite.  Request
    handlers become functions from a request and a store to a response and
    a store; [Date.now()] and [Math.random()] are read from an explicit
    world that is threaded through the handlers. *)

From Stdlib Require Import ZArith List String Ascii Bool Arith Lia.
From Stdlib Require Import Sorting.Sorted Sorting.Permutation.
From Stdlib Require Import DecimalString.
Import ListNotations.

Local Open Scope string_scope.
Local Open Scope list_scope.
Local Open Scope Z_scope.

Notation "s1 +++ s2" := (String.append s1 s2)
  (at level 60, right associativity).

(** ** JavaScript values that travel in request bodies

    A property of a parsed JSON body is missing ([undefined] when read),
    [null], or a value.  The data model fixes the type of each property, so
    a property is a [field string] or a [field Z]. *)

Inductive field (A : Type) : Type :=
| Absent : field A
| Null : field A
| Val (a : A) : field A.

Arguments Absent {A}.
Arguments Null {A}.
Arguments Val {A} a.

(** ToBoolean: [undefined], [null], the empty string and [0] are falsy. *)
Definition truthy_str (f : field string) : bool :=
  match f with
  | Val s => negb (s =? "")%string
  | _ => false
  end.

Definition truthy_num (f : field Z) : bool :=
  match f with
  | Val z => negb (z =? 0)
  | _ => false
  end.

(** Query-string parameters are strings; a parameter that was not sent is
    [None]. *)
Definition truthy_param (p : option string) : bool :=
  match p with
  | Some s => negb (s =? "")%string
  | None => false
  end.

(** ** The world: clock and random source *)

(** The code observes a result [x] of [Math.random()] in two ways only:
    through [Math.floor(x * 1000)] and through its conversion to a string
    inside a template literal. *)
Record draw : Type := { floor1000 : Z; text : string }.

Record world : Type := {
  clock : nat -> Z;      (* the successive results of Date.now() *)
  dice : nat -> draw;    (* the successive results of Math.random() *)
  ticks : nat;
  rolls : nat
}.

Definition M (A : Type) : Type := world -> A * world.

Definition ret {A} (a : A) : M A := fun w => (a, w).

Definition bind {A B} (m : M A) (k : A -> M B) : M B :=
  fun w => let (a, w') := m w in k a w'.

Notation "x <- m ;; k" := (bind m (fun x => k))
  (at level 61, m at next level, right associativity).

Definition Date_now : M Z :=
  fun w => (clock w (ticks w),
            {| clock := clock w; dice := dice w;
               ticks := S (ticks w); rolls := rolls w |}).

Definition Math_random : M draw :=
  fun w => (dice w (rolls w),
            {| clock := clock w; dice := dice w;
               ticks := ticks w; rolls := S (rolls w) |}).

(** [a || b]: [b] is evaluated only when [a] is falsy. *)
Definition or_str (a : field string) (b : M string) : M string :=
  match a with
  | Val s => if truthy_str a then ret s else b
  | _ => b
  end.

Definition or_num (a : field Z) (b : M Z) : M Z :=
  match a with
  | Val z => if truthy_num a then ret z else b
  | _ => b
  end.

Fixpoint mapM {A B} (f : A -> M B) (l : list A) : M (list B) :=
  match l with
  | [] => ret []
  | a :: l' => b <- f a ;; bs <- mapM f l' ;; ret (b :: bs)
  end.

(** ** Numbers and strings *)

(** Conversion of an integer to a string, as in a template literal. *)
Definition show (z : Z) : string := NilZero.string_of_int (Z.to_int z).

Definition show_nat (n : nat) : string := show (Z.of_nat n).

(** [parseInt] with no radix: leading white space is skipped, a sign is
    read, a [0x] prefix selects base 16, and the longest prefix of digits
    is converted; [None] stands for [NaN].  (Integers are exact here; the
    loss of precision of doubles above 2^53 is not modelled.) *)
Definition is_space (c : ascii) : bool :=
  let n := nat_of_ascii c in
  ((n =? 32) || (n =? 9) || (n =? 10) || (n =? 11) || (n =? 12) || (n =? 13))%nat.

(** The white space of JavaScript beyond ASCII, in the UTF-8 encoding that
    a string holds here: U+00A0 on two bytes; U+1680, U+2000 to U+200A,
    U+2028, U+2029, U+202F, U+205F, U+3000 and U+FEFF on three. *)
Definition is_space2 (a b : ascii) : bool :=
  ((nat_of_ascii a =? 194) && (nat_of_ascii b =? 160))%nat.

Definition is_space3 (a b c : ascii) : bool :=
  let x := nat_of_ascii a in
  let y := nat_of_ascii b in
  let z := nat_of_ascii c in
  (((x =? 225) && (y =? 154) && (z =? 128))
   || ((x =? 226) && (y =? 128)
       && (((128 <=? z) && (z <=? 138)) || (z =? 168) || (z =? 169) || (z =? 175)))
   || ((x =? 226) && (y =? 129) && (z =? 159))
   || ((x =? 227) && (y =? 128) && (z =? 128))
   || ((x =? 239) && (y =? 187) && (z =? 191)))%nat.

Fixpoint skip_space (s : string) : string :=
  match s with
  | String c s1 =>
      if is_space c then skip_space s1
      else
        match s1 with
        | String c1 s2 =>
            if is_space2 c c1 then skip_space s2
            else
              match s2 with
              | String c2 s3 => if is_space3 c c1 c2 then skip_space s3 else s
              | EmptyString => s
              end
        | EmptyString => s
        end
  | EmptyString => s
  end.

Definition digit_of (radix : Z) (c : ascii) : option Z :=
  let n := Z.of_nat (nat_of_ascii c) in
  let d :=
    if (48 <=? n) && (n <=? 57) then Some (n - 48)
    else if (97 <=? n) && (n <=? 122) then Some (n - 87)
    else if (65 <=? n) && (n <=? 90) then Some (n - 55)
    else None in
  match d with
  | Some v => if v <? radix then Some v else None
  | None => None
  end.

Fixpoint digits (radix : Z) (s : string) (acc : option Z) : option Z :=
  match s with
  | String c s' =>
      match digit_of radix c with
      | Some d =>
          digits radix s'
            (Some (radix * match acc with Some a => a | None => 0 end + d))
      | None => acc
      end
  | EmptyString => acc
  end.

Definition unsigned (s : string) : option Z :=
  match s with
  | String "0" (String "x" s') => digits 16 s' None
  | String "0" (String "X" s') => digits 16 s' None
  | _ => digits 10 s None
  end.

Definition parseInt (s : string) : option Z :=
  match skip_space s with
  | String "-" s' => option_map Z.opp (unsigned s')
  | String "+" s' => unsigned s'
  | s' => unsigned s'
  end.

(** ** JSON responses *)

Local Unset Elimination Schemes.

Inductive json : Type :=
| JNull
| JBool (b : bool)
| JNum (z : Z)
| JStr (s : string)
| JArr (l : list json)
| JObj (l : list (string * json)).

Local Set Elimination Schemes.

Record response : Type := { status : Z; body : json }.

(** [res.json(v)] and [res.status(c).json(v)]. *)
Definition res_json (v : json) : response := {| status := 200; body := v |}.
Definition res_status (c : Z) (v : json) : response := {| status := c; body := v |}.

Definition error (c : Z) (msg : string) : response :=
  res_status c (JObj [("error", JStr msg)]).

Definition jstr (o : option string) : json :=
  match o with Some s => JStr s | None => JNull end.

Definition jnum (o : option Z) : json :=
  match o with Some z => JNum z | None => JNull end.

Definition keys (v : json) : list string :=
  match v with
  | JObj l => map fst l
  | _ => []
  end.

Fixpoint get (k : string) (l : list (string * json)) : option json :=
  match l with
  | [] => None
  | (k', v) :: l' => if (k =? k')%string then Some v else get k l'
  end.

(** Property [k] of a JSON object; [None] when the object has no such
    property. *)
Definition prop (k : string) (v : json) : option json :=
  match v with
  | JObj l => get k l
  | _ => None
  end.

(** The elements of a property that holds an array, and the [count]
    property of an object (zero when it has none). *)
Definition elements (v : option json) : list json :=
  match v with
  | Some (JArr l) => l
  | _ => []
  end.

Definition count_prop (v : json) : Z :=
  match prop "count" v with
  | Some (JNum z) => z
  | _ => 0
  end.


(** ** Ordering, limiting and grouping, as the two stores do them *)

Section Ordering.
Context {A : Type}.

(** [ge a b] holds when [a] may come before [b]. *)
Variable ge : A -> A -> bool.

Fixpoint insert (x : A) (l : list A) : list A :=
  match l with
  | [] => [x]
  | y :: l' => if ge x y then x :: l else y :: insert x l'
  end.

(** A stable sort: rows with equal keys keep their stored order (the
    stores promise no order among them). *)
Definition order_by (l : list A) : list A := fold_right insert [] l.
End Ordering.

(** NULL sorts below every number, in SQLite and in MongoDB alike. *)
Definition num_ge (a b : option Z) : bool :=
  match a, b with
  | _, None => true
  | None, Some _ => false
  | Some x, Some y => y <=? x
  end.

Section Grouping.
Context {K V : Type}.
Variable eqb : K -> K -> bool.

(** One group per key, with the value of the first row met and the
    number of rows. *)
Fixpoint bump (k : K) (v : V) (g : list (K * V * nat)) : list (K * V * nat) :=
  match g with
  | [] => [(k, v, 1%nat)]
  | (k', v', n) :: g' =>
      if eqb k k' then (k', v', S n) :: g' else (k', v', n) :: bump k v g'
  end.

Definition group_by (rows : list (K * V)) : list (K * V * nat) :=
  fold_left (fun g kv => bump (fst kv) (snd kv) g) rows [].
End Grouping.

Definition count_of {K V} (g : K * V * nat) : nat := snd g.

(** The count that a list of groups gives to key [k] (zero when no group
    has this key), and the number of rows with key [k]. *)
Fixpoint count_for {K V} (eqb : K -> K -> bool) (k : K) (g : list (K * V * nat)) : nat :=
  match g with
  | [] => 0%nat
  | (k', _, n) :: g' => if eqb k k' then n else count_for eqb k g'
  end.

Definition rows_with {K V} (eqb : K -> K -> bool) (k : K) (rows : list (K * V)) : nat :=
  List.length (filter (fun kv => eqb k (fst kv)) rows).

Definition count_ge {K V} (a b : K * V * nat) : bool :=
  (count_of b <=? count_of a)%nat.


Definition group_keys {K V} (g : list (K * V * nat)) : list K :=
  map (fun x => fst (fst x)) g.

Definition opt_eqb (a b : option string) : bool :=
  match a, b with
  | Some x, Some y => (x =? y)%string
  | None, None => true
  | _, _ => false
  end.

(** ** Request bodies and query strings *)

Module Register.
Record body : Type := {
  deviceId : field string;
  deviceName : field string;
  phoneNumber : field string;
  registeredAt : field Z
}.
End Register.

Module Heartbeat.
Record body : Type := {
  deviceId : field string;
  timestamp : field Z
}.
End Heartbeat.

Module Log.
Record t : Type := {
  id : field string;
  deviceId : field string;
  phoneNumber : field string;
  contactName : field string;
  callType : field string;
  callDate : field Z;
  callDuration : field Z;
  timestamp : field Z
}.
End Log.

Module Sync.
(** [callLogs] is [None] when the property is missing or is not an
    array, and holds the objects of the array otherwise; an array that
    holds [null] is told apart where the batch is taken as it arrives
    ([sqlite_sync_array], [mongo_sync_array]). *)
Record body : Type := {
  deviceId : field string;
  callLogs : option (list Log.t)
}.
End Sync.

(** The parameters of the query string; each is a string or was not sent
    (a parameter sent several times, which Express parses to an array, is
    not modelled). *)
Module Query.
Record t : Type := {
  deviceId : option string;
  phoneNumber : option string;
  callType : option string;
  startDate : option string;
  endDate : option string;
  limit : option string
}.
End Query.

(** [const { ..., limit = 100 } = req.query] followed by
    [parseInt(limit)]. *)
Definition parsed_limit (limit : option string) : option Z :=
  match limit with
  | None => Some 100
  | Some s => parseInt s
  end.

(** ** Requests and routes *)

Inductive method : Type := GET | POST | DELETE.

Definition method_eqb (a b : method) : bool :=
  match a, b with
  | GET, GET | POST, POST | DELETE, DELETE => true
  | _, _ => false
  end.

(** A request of the HTTP surface, with its input already parsed. *)
Inductive request : Type :=
| DevicesRegister (b : Register.body)
| DevicesHeartbeat (b : Heartbeat.body)
| Devices
| CallLogsSync (b : Sync.body)
| CallLogsAdd (b : Log.t)
| CallLogs (q : Query.t)
| CallLogsNumber (phoneNumber : string) (limit : option string)
| Statistics
| AdminClearDb.

Definition route_of (r : request) : method * string :=
  match r with
  | DevicesRegister _ => (POST, "/api/devices/register")
  | DevicesHeartbeat _ => (POST, "/api/devices/heartbeat")
  | Devices => (GET, "/api/devices")
  | CallLogsSync _ => (POST, "/api/call-logs/sync")
  | CallLogsAdd _ => (POST, "/api/call-logs")
  | CallLogs _ => (GET, "/api/call-logs")
  | CallLogsNumber _ _ => (GET, "/api/call-logs/number/:phoneNumber")
  | Statistics => (GET, "/api/statistics")
  | AdminClearDb => (DELETE, "/api/admin/clear-db")
  end.

Definition route_eqb (a b : method * string) : bool :=
  method_eqb (fst a) (fst b) && (snd a =? snd b)%string.

Definition registered (routes : list (method * string)) (r : method * string) : bool :=
  existsb (route_eqb r) routes.

(** The rows of the interface table of the specification. *)
Definition interface_table : list (method * string) :=
  [ (POST, "/api/devices/register");
    (POST, "/api/devices/heartbeat");
    (GET, "/api/devices");
    (POST, "/api/call-logs/sync");
    (POST, "/api/call-logs");
    (GET, "/api/call-logs");
    (GET, "/api/call-logs/number/:phoneNumber");
    (GET, "/api/statistics");
    (DELETE, "/api/admin/clear-db") ].

Definition success : json := JObj [("success", JBool true)].

Definition success_message (msg : string) : json :=
  JObj [("success", JBool true); ("message", JStr msg)].

(** * The SQLite server *)

Module Sqlite.

(** [a = b] in SQL: a comparison with NULL is never true. *)
Definition sql_eq (a b : option string) : bool :=
  match a, b with
  | Some x, Some y => (x =? y)%string
  | _, _ => false
  end.

(** [col >= ?] and [col <= ?]; a [NaN] parameter is bound as NULL. *)
Definition sql_ge (col param : option Z) : bool :=
  match col, param with
  | Some x, Some y => y <=? x
  | _, _ => false
  end.

Definition sql_le (col param : option Z) : bool :=
  match col, param with
  | Some x, Some y => x <=? y
  | _, _ => false
  end.

(** A parameter that is [undefined] or [null] is bound as NULL. *)
Definition bound {A} (f : field A) : option A :=
  match f with
  | Val a => Some a
  | _ => None
  end.

Module devices.
Record row : Type := {
  device_id : option string;
  device_name : option string;
  phone_number : option string;
  registered_at : option Z;
  last_heartbeat : option Z
}.

Definition to_json (r : row) : json :=
  JObj [ ("device_id", jstr (device_id r));
         ("device_name", jstr (device_name r));
         ("phone_number", jstr (phone_number r));
         ("registered_at", jnum (registered_at r));
         ("last_heartbeat", jnum (last_heartbeat r)) ].
End devices.

Module call_logs.
(** [id] and [timestamp] are never bound to NULL by the two handlers that
    write this table. *)
Record row : Type := {
  id : string;
  device_id : option string;
  phone_number : option string;
  contact_name : option string;
  call_type : option string;
  call_date : option Z;
  call_duration : option Z;
  timestamp : Z
}.

Definition columns (r : row) : list (string * json) :=
  [ ("id", JStr (id r));
    ("device_id", jstr (device_id r));
    ("phone_number", jstr (phone_number r));
    ("contact_name", jstr (contact_name r));
    ("call_type", jstr (call_type r));
    ("call_date", jnum (call_date r));
    ("call_duration", jnum (call_duration r));
    ("timestamp", JNum (timestamp r)) ].
End call_logs.

Record db : Type := {
  devices_table : list devices.row;
  call_logs_table : list call_logs.row
}.

Definition empty : db := {| devices_table := []; call_logs_table := [] |}.

(** [INSERT OR REPLACE INTO devices]: the rows that conflict on the primary
    key are deleted, then the row is inserted.  A NULL key conflicts with
    no row. *)
Definition replace_device (r : devices.row) (t : list devices.row) : list devices.row :=
  filter (fun r' => negb (sql_eq (devices.device_id r') (devices.device_id r))) t ++ [r].

(** [INSERT OR REPLACE INTO call_logs]. *)
Definition replace_call_log (r : call_logs.row) (t : list call_logs.row) : list call_logs.row :=
  filter (fun r' => negb (call_logs.id r' =? call_logs.id r)%string) t ++ [r].

(** [POST /api/devices/register] *)
Definition register (b : Register.body) (s : db) : M (response * db) :=
  now <- Date_now ;;
  let r := {| devices.device_id := bound (Register.deviceId b);
              devices.device_name := bound (Register.deviceName b);
              devices.phone_number := bound (Register.phoneNumber b);
              devices.registered_at := bound (Register.registeredAt b);
              devices.last_heartbeat := Some now |} in
  ret (res_json (success_message "Device registered successfully"),
       {| devices_table := replace_device r (devices_table s);
          call_logs_table := call_logs_table s |}).

(** [UPDATE devices SET last_heartbeat = ? WHERE device_id = ?] *)
Definition update_heartbeat (ts : option Z) (dev : option string) (t : list devices.row) : list devices.row :=
  map (fun r =>
         if sql_eq (devices.device_id r) dev
         then {| devices.device_id := devices.device_id r;
                 devices.device_name := devices.device_name r;
                 devices.phone_number := devices.phone_number r;
                 devices.registered_at := devices.registered_at r;
                 devices.last_heartbeat := ts |}
         else r) t.

(** [POST /api/devices/heartbeat] *)
Definition heartbeat (b : Heartbeat.body) (s : db) : response * db :=
  (res_json success,
   {| devices_table :=
        update_heartbeat (bound (Heartbeat.timestamp b))
          (bound (Heartbeat.deviceId b)) (devices_table s);
      call_logs_table := call_logs_table s |}).

(** [GET /api/devices]: [ORDER BY registered_at DESC]. *)
Definition get_devices (s : db) : response :=
  let rows := order_by (fun a b => num_ge (devices.registered_at a) (devices.registered_at b))
                (devices_table s) in
  res_json (JObj [("devices", JArr (map devices.to_json rows))]).

(** The identity given to a record that has none. *)
Definition new_id : M string :=
  now <- Date_now ;;
  x <- Math_random ;;
  ret (show now +++ "_" +++ show (floor1000 x)).

(** The values bound by one [stmt.run] of the batch; the device is the one
    of the batch. *)
Definition sync_values (deviceId : field string) (log : Log.t) : M call_logs.row :=
  i <- or_str (Log.id log) new_id ;;
  ts <- or_num (Log.timestamp log) Date_now ;;
  ret {| call_logs.id := i;
         call_logs.device_id := bound deviceId;
         call_logs.phone_number := bound (Log.phoneNumber log);
         call_logs.contact_name := bound (Log.contactName log);
         call_logs.call_type := bound (Log.callType log);
         call_logs.call_date := bound (Log.callDate log);
         call_logs.call_duration := bound (Log.callDuration log);
         call_logs.timestamp := ts |}.

Definition run_all (rows : list call_logs.row) (t : list call_logs.row) : list call_logs.row :=
  fold_left (fun t r => replace_call_log r t) rows t.

(** [POST /api/call-logs/sync] *)
Definition sync (b : Sync.body) (s : db) : M (response * db) :=
  match Sync.callLogs b with
  | None => ret (error 400 "Invalid call logs data", s)
  | Some callLogs =>
      rows <- mapM (sync_values (Sync.deviceId b)) callLogs ;;
      ret (res_json (success_message
                       ("Synced " +++ show_nat (List.length callLogs) +++ " call logs")),
           {| devices_table := devices_table s;
              call_logs_table := run_all rows (call_logs_table s) |})
  end.

(** [POST /api/call-logs]: one record, with the device it names itself. *)
Definition add (callLog : Log.t) (s : db) : M (response * db) :=
  r <- sync_values (Log.deviceId callLog) callLog ;;
  ret (res_status 201 (success_message "Call log added successfully"),
       {| devices_table := devices_table s;
          call_logs_table := replace_call_log r (call_logs_table s) |}).

(** [call_logs cl LEFT JOIN devices d ON cl.device_id = d.device_id]: each
    call log with every device that matches, or once with no device. *)
Definition left_join (s : db) : list (call_logs.row * option devices.row) :=
  flat_map
    (fun cl =>
       match filter (fun d => sql_eq (call_logs.device_id cl) (devices.device_id d))
               (devices_table s) with
       | [] => [(cl, None)]
       | ds => map (fun d => (cl, Some d)) ds
       end)
    (call_logs_table s).

(** A column of [d] in a joined row: NULL when no device matched. *)
Definition d_col {A} (col : devices.row -> option A) (d : option devices.row) : option A :=
  match d with
  | Some r => col r
  | None => None
  end.

(** The conditions appended to [WHERE 1=1]. *)
Definition where_ (q : Query.t) (cl : call_logs.row) : bool :=
  (if truthy_param (Query.deviceId q)
   then sql_eq (call_logs.device_id cl) (Query.deviceId q) else true)
  && (if truthy_param (Query.phoneNumber q)
      then sql_eq (call_logs.phone_number cl) (Query.phoneNumber q) else true)
  && (if truthy_param (Query.callType q)
      then sql_eq (call_logs.call_type cl) (Query.callType q) else true)
  && (if truthy_param (Query.startDate q)
      then sql_ge (call_logs.call_date cl)
             (match Query.startDate q with Some s => parseInt s | None => None end)
      else true)
  && (if truthy_param (Query.endDate q)
      then sql_le (call_logs.call_date cl)
             (match Query.endDate q with Some s => parseInt s | None => None end)
      else true).

Definition by_call_date_desc (a b : call_logs.row * option devices.row) : bool :=
  num_ge (call_logs.call_date (fst a)) (call_logs.call_date (fst b)).

(** [LIMIT n]: a negative [n] removes the limit. *)
Definition sql_limit {A} (n : Z) (l : list A) : list A :=
  if n <? 0 then l else firstn (Z.to_nat n) l.

(** [SELECT cl.*, d.device_name] *)
Definition selected (r : call_logs.row * option devices.row) : json :=
  JObj (call_logs.columns (fst r)
        ++ [("device_name", jstr (d_col devices.device_name (snd r)))]).

(** [SELECT cl.*, d.device_name, d.phone_number as device_phone] *)
Definition selected_number (r : call_logs.row * option devices.row) : json :=
  JObj (call_logs.columns (fst r)
        ++ [("device_name", jstr (d_col devices.device_name (snd r)));
            ("device_phone", jstr (d_col devices.phone_number (snd r)))]).

(** The rows of [GET /api/call-logs], when the limit is a number. *)
Definition call_logs_rows (q : Query.t) (n : Z) (s : db) : list (call_logs.row * option devices.row) :=
  sql_limit n
    (order_by by_call_date_desc
       (filter (fun r => where_ q (fst r)) (left_join s))).

(** [GET /api/call-logs].  A limit that is [NaN] is bound as NULL, which
    SQLite refuses as a [LIMIT]. *)
Definition get_call_logs (q : Query.t) (s : db) : response :=
  match parsed_limit (Query.limit q) with
  | None => error 500 "Failed to fetch call logs"
  | Some n =>
      let rows := call_logs_rows q n s in
      res_json (JObj [("callLogs", JArr (map selected rows));
                      ("count", JNum (Z.of_nat (List.length rows)))])
  end.

Definition number_rows (phoneNumber : string) (n : Z) (s : db) : list (call_logs.row * option devices.row) :=
  sql_limit n
    (order_by by_call_date_desc
       (filter (fun r => sql_eq (call_logs.phone_number (fst r)) (Some phoneNumber))
          (left_join s))).

(** [GET /api/call-logs/number/:phoneNumber] *)
Definition get_call_logs_number (phoneNumber : string) (limit : option string) (s : db) : response :=
  match parsed_limit limit with
  | None => error 500 "Failed to fetch call logs"
  | Some n =>
      let rows := number_rows phoneNumber n s in
      res_json (JObj [("phoneNumber", JStr phoneNumber);
                      ("callLogs", JArr (map selected_number rows));
                      ("count", JNum (Z.of_nat (List.length rows)))])
  end.

(** [SELECT call_type, COUNT( * ) as count FROM call_logs GROUP BY call_type];
    NULL is a group of its own. *)
Definition calls_by_type (s : db) : list (option string * unit * nat) :=
  group_by opt_eqb (map (fun cl => (call_logs.call_type cl, tt)) (call_logs_table s)).

(** [SELECT phone_number, contact_name, COUNT( * ) as count FROM call_logs
    GROUP BY phone_number ORDER BY count DESC LIMIT 10]; [contact_name] is
    taken from one row of the group. *)
Definition top_contacts (s : db) : list (option string * option string * nat) :=
  sql_limit 10
    (order_by count_ge
       (group_by opt_eqb
          (map (fun cl => (call_logs.phone_number cl, call_logs.contact_name cl))
             (call_logs_table s)))).

Definition total_devices (s : db) : nat := List.length (devices_table s).

Definition total_call_logs (s : db) : nat := List.length (call_logs_table s).

(** [GET /api/statistics] *)
Definition statistics (s : db) : response :=
  res_json
    (JObj [ ("totalDevices", JNum (Z.of_nat (total_devices s)));
            ("totalCallLogs", JNum (Z.of_nat (total_call_logs s)));
            ("callsByType",
             JArr (map (fun g => JObj [("call_type", jstr (fst (fst g)));
                                       ("count", JNum (Z.of_nat (count_of g)))])
                     (calls_by_type s)));
            ("topContacts",
             JArr (map (fun g => JObj [("phone_number", jstr (fst (fst g)));
                                       ("contact_name", jstr (snd (fst g)));
                                       ("count", JNum (Z.of_nat (count_of g)))])
                     (top_contacts s))) ]).

(** [DELETE /api/admin/clear-db] *)
Definition clear_db (s : db) : response * db :=
  (res_json (success_message "Database cleared successfully"), empty).

(** The routes registered on [app], in the order of the file. *)
Definition routes : list (method * string) :=
  [ (POST, "/api/devices/register");
    (POST, "/api/devices/heartbeat");
    (GET, "/api/devices");
    (POST, "/api/call-logs/sync");
    (POST, "/api/call-logs");
    (GET, "/api/call-logs");
    (GET, "/api/call-logs/number/:phoneNumber");
    (GET, "/api/statistics");
    (DELETE, "/api/admin/clear-db") ].

(** The server: [None] when no handler is registered for the request. *)
Definition app (r : request) (s : db) : M (option response * db) :=
  match r with
  | DevicesRegister b => p <- register b s ;; ret (Some (fst p), snd p)
  | DevicesHeartbeat b => let p := heartbeat b s in ret (Some (fst p), snd p)
  | Devices => ret (Some (get_devices s), s)
  | CallLogsSync b => p <- sync b s ;; ret (Some (fst p), snd p)
  | CallLogsAdd b => p <- add b s ;; ret (Some (fst p), snd p)
  | CallLogs q => ret (Some (get_call_logs q s), s)
  | CallLogsNumber n l => ret (Some (get_call_logs_number n l s), s)
  | Statistics => ret (Some (statistics s), s)
  | AdminClearDb => let p := clear_db s in ret (Some (fst p), snd p)
  end.

End Sqlite.

(** * The MongoDB server ([src/server.js])

    The store is held by MongoDB and reached through Mongoose models.  What
    the handlers rely on is modelled here: an update object without
    operators is applied as [$set]; Mongoose removes from it the keys whose
    value is [undefined] before it is sent; an upsert that matches no
    document inserts the equality fields of the filter with the update
    applied; a unique index refuses a second document with the same key.
    The bookkeeping paths [_id], [__v], [createdAt] and [updatedAt] are not
    part of the data model and are left out. *)

Module Mongo.

(** [{ path: q }] in a filter against the value of [path] in a document;
    [undefined] in a filter is sent as [null], and [null] matches a path
    that is [null] or missing. *)
Definition filter_eq {A} (eqb : A -> A -> bool) (q d : field A) : bool :=
  match q, d with
  | Val a, Val b => eqb a b
  | Val _, _ => false
  | _, Val _ => false
  | _, _ => true
  end.

(** [$set] of one path: a key that is [undefined] was removed from the
    update, so the path keeps its value. *)
Definition set {A} (u old : field A) : field A :=
  match u with
  | Absent => old
  | _ => u
  end.

(** The value a path takes in a document inserted by an upsert, from an
    equality condition of the filter. *)
Definition of_filter {A} (q : field A) : field A :=
  match q with
  | Absent => Null
  | _ => q
  end.

(** The key of a path in an index or in [$group]: a missing path counts as
    [null]. *)
Definition key {A} (f : field A) : option A :=
  match f with
  | Val a => Some a
  | _ => None
  end.

Definition jfield_str (name : string) (f : field string) : list (string * json) :=
  match f with
  | Absent => []
  | Null => [(name, JNull)]
  | Val s => [(name, JStr s)]
  end.

Definition jfield_num (name : string) (f : field Z) : list (string * json) :=
  match f with
  | Absent => []
  | Null => [(name, JNull)]
  | Val z => [(name, JNum z)]
  end.

Module Device.
Record doc : Type := {
  deviceId : field string;
  deviceName : field string;
  phoneNumber : field string;
  registeredAt : field Z;
  lastHeartbeat : field Z
}.

Definition to_json (d : doc) : json :=
  JObj (jfield_str "deviceId" (deviceId d)
        ++ jfield_str "deviceName" (deviceName d)
        ++ jfield_str "phoneNumber" (phoneNumber d)
        ++ jfield_num "registeredAt" (registeredAt d)
        ++ jfield_num "lastHeartbeat" (lastHeartbeat d)).

Definition update (u d : doc) : doc :=
  {| deviceId := set (deviceId u) (deviceId d);
     deviceName := set (deviceName u) (deviceName d);
     phoneNumber := set (phoneNumber u) (phoneNumber d);
     registeredAt := set (registeredAt u) (registeredAt d);
     lastHeartbeat := set (lastHeartbeat u) (lastHeartbeat d) |}.
End Device.

Module CallLog.
Record doc : Type := {
  id : field string;
  deviceId : field string;
  phoneNumber : field string;
  contactName : field string;
  callType : field string;
  callDate : field Z;
  callDuration : field Z;
  timestamp : field Z
}.

Definition to_json (d : doc) : json :=
  JObj (jfield_str "id" (id d)
        ++ jfield_str "deviceId" (deviceId d)
        ++ jfield_str "phoneNumber" (phoneNumber d)
        ++ jfield_str "contactName" (contactName d)
        ++ jfield_str "callType" (callType d)
        ++ jfield_num "callDate" (callDate d)
        ++ jfield_num "callDuration" (callDuration d)
        ++ jfield_num "timestamp" (timestamp d)).

Definition update (u d : doc) : doc :=
  {| id := set (id u) (id d);
     deviceId := set (deviceId u) (deviceId d);
     phoneNumber := set (phoneNumber u) (phoneNumber d);
     contactName := set (contactName u) (contactName d);
     callType := set (callType u) (callType d);
     callDate := set (callDate u) (callDate d);
     callDuration := set (callDuration u) (callDuration d);
     timestamp := set (timestamp u) (timestamp d) |}.
End CallLog.

Record db : Type := {
  devices : list Device.doc;
  calllogs : list CallLog.doc
}.

Definition empty : db := {| devices := []; calllogs := [] |}.

(** The first document that satisfies [p], with the documents before and
    after it. *)
Fixpoint find_one {D} (p : D -> bool) (c : list D) : option (list D * D * list D) :=
  match c with
  | [] => None
  | d :: c' =>
      if p d then Some ([], d, c')
      else match find_one p c' with
           | Some (pre, x, post) => Some (d :: pre, x, post)
           | None => None
           end
  end.

(** [Device.findOneAndUpdate({ deviceId }, { ... }, { upsert: true })] *)
Definition upsert_device (deviceId : field string) (u : Device.doc) (c : list Device.doc) : list Device.doc :=
  match find_one (fun d => filter_eq String.eqb deviceId (Device.deviceId d)) c with
  | Some (pre, d, post) => pre ++ Device.update u d :: post
  | None =>
      c ++ [Device.update u
              {| Device.deviceId := of_filter deviceId;
                 Device.deviceName := Absent;
                 Device.phoneNumber := Absent;
                 Device.registeredAt := Absent;
                 Device.lastHeartbeat := Absent |}]
  end.

(** [POST /api/devices/register] *)
Definition register (b : Register.body) (s : db) : M (response * db) :=
  now <- Date_now ;;
  let u := {| Device.deviceId := Absent;
              Device.deviceName := Register.deviceName b;
              Device.phoneNumber := Register.phoneNumber b;
              Device.registeredAt := Register.registeredAt b;
              Device.lastHeartbeat := Val now |} in
  ret (res_json (success_message "Device registered successfully"),
       {| devices := upsert_device (Register.deviceId b) u (devices s);
          calllogs := calllogs s |}).

(** [Device.updateOne({ deviceId }, { lastHeartbeat: timestamp })] *)
Definition update_heartbeat (deviceId : field string) (ts : field Z) (c : list Device.doc) : list Device.doc :=
  match find_one (fun d => filter_eq String.eqb deviceId (Device.deviceId d)) c with
  | Some (pre, d, post) =>
      pre ++ Device.update
               {| Device.deviceId := Absent;
                  Device.deviceName := Absent;
                  Device.phoneNumber := Absent;
                  Device.registeredAt := Absent;
                  Device.lastHeartbeat := ts |} d :: post
  | None => c
  end.

(** [POST /api/devices/heartbeat] *)
Definition heartbeat (b : Heartbeat.body) (s : db) : response * db :=
  (res_json success,
   {| devices := update_heartbeat (Heartbeat.deviceId b) (Heartbeat.timestamp b) (devices s);
      calllogs := calllogs s |}).

(** [GET /api/devices]: [Device.find().sort({ registeredAt: -1 })]. *)
Definition get_devices (s : db) : response :=
  let docs := order_by (fun a b => num_ge (key (Device.registeredAt a)) (key (Device.registeredAt b)))
                (devices s) in
  res_json (JObj [("devices", JArr (map Device.to_json docs))]).

(** One operation of the bulk write: the [id] of the filter and the update
    object. *)
Definition new_id : M string :=
  now <- Date_now ;;
  x <- Math_random ;;
  ret (show now +++ "_" +++ text x).

Definition bulk_op (deviceId : field string) (log : Log.t) : M (string * CallLog.doc) :=
  i <- or_str (Log.id log) new_id ;;
  ts <- or_num (Log.timestamp log) Date_now ;;
  ret (i,
       {| CallLog.id := Log.id log;
          CallLog.deviceId := deviceId;
          CallLog.phoneNumber := Log.phoneNumber log;
          CallLog.contactName := Log.contactName log;
          CallLog.callType := Log.callType log;
          CallLog.callDate := Log.callDate log;
          CallLog.callDuration := Log.callDuration log;
          CallLog.timestamp := Val ts |}).

(** The unique index on [id]. *)
Definition unique_id (d : CallLog.doc) (others : list CallLog.doc) : bool :=
  forallb (fun o => negb (opt_eqb (key (CallLog.id o)) (key (CallLog.id d)))) others.

(** [updateOne: { filter: { id }, update, upsert: true }]; [None] is a
    duplicate-key error. *)
Definition update_one (op : string * CallLog.doc) (c : list CallLog.doc) : option (list CallLog.doc) :=
  let (i, u) := op in
  match find_one (fun d => filter_eq String.eqb (Val i) (CallLog.id d)) c with
  | Some (pre, d, post) =>
      let d' := CallLog.update u d in
      if unique_id d' (pre ++ post) then Some (pre ++ d' :: post) else None
  | None =>
      let d' := CallLog.update u
                  {| CallLog.id := Val i;
                     CallLog.deviceId := Absent;
                     CallLog.phoneNumber := Absent;
                     CallLog.contactName := Absent;
                     CallLog.callType := Absent;
                     CallLog.callDate := Absent;
                     CallLog.callDuration := Absent;
                     CallLog.timestamp := Absent |} in
      if unique_id d' c then Some (c ++ [d']) else None
  end.

(** [CallLog.bulkWrite(bulkOps)], ordered: the operations are applied in
    turn and the first error stops the write, what was written before it
    stays.  The boolean tells whether every operation succeeded. *)
Fixpoint bulk_write (ops : list (string * CallLog.doc)) (c : list CallLog.doc) : bool * list CallLog.doc :=
  match ops with
  | [] => (true, c)
  | op :: ops' =>
      match update_one op c with
      | Some c' => bulk_write ops' c'
      | None => (false, c)
      end
  end.

(** [POST /api/call-logs/sync] *)
Definition sync (b : Sync.body) (s : db) : M (response * db) :=
  match Sync.callLogs b with
  | None => ret (error 400 "Invalid call logs data", s)
  | Some callLogs =>
      bulkOps <- mapM (bulk_op (Sync.deviceId b)) callLogs ;;
      let (ok, c) := bulk_write bulkOps (calllogs s) in
      let s' := {| devices := devices s; calllogs := c |} in
      if ok
      then ret (res_json (success_message
                            ("Synced " +++ show_nat (List.length callLogs) +++ " call logs")),
                s')
      else ret (error 500 "Failed to sync call logs", s')
  end.

(** The [filter] object built by [GET /api/call-logs].  A key that was not
    assigned is [None]; [$gte] and [$lte] hold the result of [parseInt],
    which may be [NaN].  ([filter.callDate] is created only when one of the
    two bounds is about to be assigned, so the two bounds are kept flat.) *)
Module Filter.
Record t : Type := {
  deviceId : option string;
  phoneNumber : option string;
  callType : option string;
  gte : option (option Z);
  lte : option (option Z)
}.
End Filter.

Definition assigned (p : option string) : option string :=
  if truthy_param p then p else None.

Definition assigned_int (p : option string) : option (option Z) :=
  if truthy_param p
  then Some (match p with Some s => parseInt s | None => None end)
  else None.

Definition make_filter (q : Query.t) : Filter.t :=
  {| Filter.deviceId := assigned (Query.deviceId q);
     Filter.phoneNumber := assigned (Query.phoneNumber q);
     Filter.callType := assigned (Query.callType q);
     Filter.gte := assigned_int (Query.startDate q);
     Filter.lte := assigned_int (Query.endDate q) |}.

(** Mongoose refuses to cast [NaN] to the Number of the schema. *)
Definition castable (b : option (option Z)) : bool :=
  match b with
  | Some None => false
  | _ => true
  end.

Definition cond_eq (c : option string) (d : field string) : bool :=
  match c with
  | Some s => filter_eq String.eqb (Val s) d
  | None => true
  end.

Definition cond_gte (c : option (option Z)) (d : field Z) : bool :=
  match c, d with
  | None, _ => true
  | Some (Some z), Val x => z <=? x
  | Some _, _ => false
  end.

Definition cond_lte (c : option (option Z)) (d : field Z) : bool :=
  match c, d with
  | None, _ => true
  | Some (Some z), Val x => x <=? z
  | Some _, _ => false
  end.

(** A document satisfies a filter when it satisfies each of its keys. *)
Definition satisfies (f : Filter.t) (d : CallLog.doc) : bool :=
  cond_eq (Filter.deviceId f) (CallLog.deviceId d)
  && cond_eq (Filter.phoneNumber f) (CallLog.phoneNumber d)
  && cond_eq (Filter.callType f) (CallLog.callType d)
  && cond_gte (Filter.gte f) (CallLog.callDate d)
  && cond_lte (Filter.lte f) (CallLog.callDate d).

Definition by_callDate_desc (a b : CallLog.doc) : bool :=
  num_ge (key (CallLog.callDate a)) (key (CallLog.callDate b)).

(** [.limit(n)]: zero is no limit, and a negative limit is the limit of
    its absolute value. *)
Definition limit_ {A} (n : Z) (l : list A) : list A :=
  if n =? 0 then l else firstn (Z.to_nat (Z.abs n)) l.

(** The documents of [GET /api/call-logs], when the query can be run. *)
Definition find (q : Query.t) (n : Z) (s : db) : list CallLog.doc :=
  limit_ n (order_by by_callDate_desc (filter (satisfies (make_filter q)) (calllogs s))).

(** [GET /api/call-logs] *)
Definition get_call_logs (q : Query.t) (s : db) : response :=
  let f := make_filter q in
  match parsed_limit (Query.limit q) with
  | None => error 500 "Failed to fetch call logs"
  | Some n =>
      if castable (Filter.gte f) && castable (Filter.lte f)
      then
        let logs := find q n s in
        res_json (JObj [("callLogs", JArr (map CallLog.to_json logs));
                        ("count", JNum (Z.of_nat (List.length logs)))])
      else error 500 "Failed to fetch call logs"
  end.

(** [{ $group: { _id: "$callType", count: { $sum: 1 } } }] *)
Definition calls_by_type (s : db) : list (option string * unit * nat) :=
  group_by opt_eqb (map (fun d => (key (CallLog.callType d), tt)) (calllogs s)).

(** [$group] by [phoneNumber] with [$first] of [contactName], [$sort] by
    [count] descending, [$limit] 10. *)
Definition top_contacts (s : db) : list (option string * option string * nat) :=
  firstn 10
    (order_by count_ge
       (group_by opt_eqb
          (map (fun d => (key (CallLog.phoneNumber d), key (CallLog.contactName d)))
             (calllogs s)))).

Definition total_devices (s : db) : nat := List.length (devices s).

Definition total_call_logs (s : db) : nat := List.length (calllogs s).

(** [GET /api/statistics] *)
Definition statistics (s : db) : response :=
  res_json
    (JObj [ ("totalDevices", JNum (Z.of_nat (total_devices s)));
            ("totalCallLogs", JNum (Z.of_nat (total_call_logs s)));
            ("callsByType",
             JArr (map (fun g => JObj [("_id", jstr (fst (fst g)));
                                       ("count", JNum (Z.of_nat (count_of g)))])
                     (calls_by_type s)));
            ("topContacts",
             JArr (map (fun g => JObj [("_id", jstr (fst (fst g)));
                                       ("contactName", jstr (snd (fst g)));
                                       ("count", JNum (Z.of_nat (count_of g)))])
                     (top_contacts s))) ]).

(** The API routes registered on [app], in the order of the file. *)
Definition routes : list (method * string) :=
  [ (POST, "/api/devices/register");
    (POST, "/api/devices/heartbeat");
    (GET, "/api/devices");
    (POST, "/api/call-logs/sync");
    (GET, "/api/call-logs");
    (GET, "/api/statistics") ].

(** The server: [None] when no handler is registered for the request. *)
Definition app (r : request) (s : db) : M (option response * db) :=
  match r with
  | DevicesRegister b => p <- register b s ;; ret (Some (fst p), snd p)
  | DevicesHeartbeat b => let p := heartbeat b s in ret (Some (fst p), snd p)
  | Devices => ret (Some (get_devices s), s)
  | CallLogsSync b => p <- sync b s ;; ret (Some (fst p), snd p)
  | CallLogs q => ret (Some (get_call_logs q s), s)
  | Statistics => ret (Some (statistics s), s)
  | CallLogsAdd _ | CallLogsNumber _ _ | AdminClearDb => ret (None, s)
  end.

End Mongo.

(** * Scenarios *)

(** A world whose clock stands at [t] and whose random source gives the
    draws of [xs] in turn (and the last of them, or zero, afterwards). *)
Definition world_at (t : Z) (xs : list draw) : world :=
  {| clock := fun _ => t;
     dice := fun n => nth n xs (last xs {| floor1000 := 0; text := "0" |});
     ticks := 0;
     rolls := 0 |}.


Definition t0 : Z := 1700000000000.

Definition device_A1 : Register.body :=
  {| Register.deviceId := Val "A1";
     Register.deviceName := Val "Pixel";
     Register.phoneNumber := Val "100";
     Register.registeredAt := Val 1000 |}.

Definition heartbeat_B2 : Heartbeat.body :=
  {| Heartbeat.deviceId := Val "B2"; Heartbeat.timestamp := Val 5000 |}.

Definition batch (deviceId : string) (logs : list Log.t) : Sync.body :=
  {| Sync.deviceId := Val deviceId; Sync.callLogs := Some logs |}.

(** A call of number 555 that carries no [id] and no [timestamp]. *)
Definition call_555 : Log.t :=
  {| Log.id := Absent;
     Log.deviceId := Absent;
     Log.phoneNumber := Val "555";
     Log.contactName := Absent;
     Log.callType := Val "missed";
     Log.callDate := Val 2000;
     Log.callDuration := Absent;
     Log.timestamp := Absent |}.

(** The record [c1] as first submitted, and as submitted again without
    [contactName] and [callDuration]. *)
Definition c1_first : Log.t :=
  {| Log.id := Val "c1";
     Log.deviceId := Absent;
     Log.phoneNumber := Val "555";
     Log.contactName := Val "Bob";
     Log.callType := Val "missed";
     Log.callDate := Val 2000;
     Log.callDuration := Val 60;
     Log.timestamp := Val 3000 |}.

Definition c1_again : Log.t :=
  {| Log.id := Val "c1";
     Log.deviceId := Absent;
     Log.phoneNumber := Val "555";
     Log.contactName := Absent;
     Log.callType := Val "incoming";
     Log.callDate := Val 2500;
     Log.callDuration := Absent;
     Log.timestamp := Val 4000 |}.

(** A record whose [id] is the empty string and whose [timestamp] is 0,
    and one whose [id] is [null]. *)
Definition call_falsy : Log.t :=
  {| Log.id := Val "";
     Log.deviceId := Absent;
     Log.phoneNumber := Val "555";
     Log.contactName := Val "Bob";
     Log.callType := Val "missed";
     Log.callDate := Val 2000;
     Log.callDuration := Val 60;
     Log.timestamp := Val 0 |}.

Definition call_null_id : Log.t :=
  {| Log.id := Null;
     Log.deviceId := Absent;
     Log.phoneNumber := Val "555";
     Log.contactName := Val "Bob";
     Log.callType := Val "missed";
     Log.callDate := Val 2000;
     Log.callDuration := Val 60;
     Log.timestamp := Val 3000 |}.

(** The identities that the SQLite server can synthesize while the clock
    reads [t]. *)
Definition identities_at (t : Z) : list string :=
  map (fun b => show t +++ "_" +++ show (Z.of_nat b)) (seq 0 1000).

(** Two draws that fall in the same thousandth. *)
Definition same_thousandth : list draw :=
  [ {| floor1000 := 123; text := "0.1234" |};
    {| floor1000 := 123; text := "0.1239" |} ].



(** The state of a server after a request. *)
Definition after {S R} (m : M (R * S)) (w : world) : S := snd (fst (m w)).

Definition answer {S R} (m : M (R * S)) (w : world) : R := fst (fst (m w)).

(** Stores in which device A1 is registered. *)
Definition sqlite_A1 : Sqlite.db :=
  after (Sqlite.register device_A1 Sqlite.empty) (world_at 1000 []).

Definition mongo_A1 : Mongo.db :=
  after (Mongo.register device_A1 Mongo.empty) (world_at 1000 []).



(** Stores in which A1 is registered and has sent record [c1]. *)
Definition sqlite_A1_c1 : Sqlite.db :=
  after (Sqlite.sync (batch "A1" [c1_first]) sqlite_A1) (world_at t0 []).

Definition mongo_A1_c1 : Mongo.db :=
  after (Mongo.sync (batch "A1" [c1_first]) mongo_A1) (world_at t0 []).


Definition doc_c1 (dev : string) : Mongo.CallLog.doc :=
  {| Mongo.CallLog.id := Val "c1";
     Mongo.CallLog.deviceId := Val dev;
     Mongo.CallLog.phoneNumber := Val "555";
     Mongo.CallLog.contactName := Val "Bob";
     Mongo.CallLog.callType := Val "missed";
     Mongo.CallLog.callDate := Val 2000;
     Mongo.CallLog.callDuration := Val 60;
     Mongo.CallLog.timestamp := Val 3000 |}.


Definition heartbeat_A1 : Heartbeat.body :=
  {| Heartbeat.deviceId := Val "A1"; Heartbeat.timestamp := Val 5000 |}.


Definition at_most_zero : Query.t :=
  {| Query.deviceId := None;
     Query.phoneNumber := None;
     Query.callType := None;
     Query.startDate := None;
     Query.endDate := None;
     Query.limit := Some "0" |}.

(** Two more records, [c2] more recent than [c1] and [c3] older, and
    stores in which A1 has sent [c1] with one of them. *)
Definition c2_first : Log.t :=
  {| Log.id := Val "c2";
     Log.deviceId := Absent;
     Log.phoneNumber := Val "777";
     Log.contactName := Val "Ann";
     Log.callType := Val "incoming";
     Log.callDate := Val 3000;
     Log.callDuration := Val 30;
     Log.timestamp := Val 3500 |}.

Definition c3_first : Log.t :=
  {| Log.id := Val "c3";
     Log.deviceId := Absent;
     Log.phoneNumber := Val "888";
     Log.contactName := Absent;
     Log.callType := Val "outgoing";
     Log.callDate := Val 1000;
     Log.callDuration := Val 10;
     Log.timestamp := Val 1500 |}.

Definition sqlite_c1_c2 : Sqlite.db :=
  after (Sqlite.sync (batch "A1" [c1_first; c2_first]) sqlite_A1) (world_at t0 []).


Definition sqlite_c1_c3 : Sqlite.db :=
  after (Sqlite.sync (batch "A1" [c1_first; c3_first]) sqlite_A1) (world_at t0 []).




(** The routes that the SQLite server alone registers. *)
Definition sqlite_only : list (method * string) :=
  [ (POST, "/api/call-logs");
    (GET, "/api/call-logs/number/:phoneNumber");
    (DELETE, "/api/admin/clear-db") ].


(** * Statements about queries *)

(** A filter parameter is present when it was sent with a value. *)
Definition present (p : option string) : Prop := truthy_param p = true.

(** A record, seen through the four fields that can be filtered on, meets
    every filter that is present in the request. *)
Definition meets (q : Query.t) (deviceId phoneNumber callType : option string)
  (callDate : option Z) : Prop :=
  (present (Query.deviceId q) -> deviceId = Query.deviceId q)
  /\ (present (Query.phoneNumber q) -> phoneNumber = Query.phoneNumber q)
  /\ (present (Query.callType q) -> callType = Query.callType q)
  /\ (present (Query.startDate q) ->
      exists v z d, Query.startDate q = Some v /\ parseInt v = Some z
                    /\ callDate = Some d /\ z <= d)
  /\ (present (Query.endDate q) ->
      exists v z d, Query.endDate q = Some v /\ parseInt v = Some z
                    /\ callDate = Some d /\ d <= z).


Definition meets_doc (q : Query.t) (d : Mongo.CallLog.doc) : Prop :=
  meets q (Mongo.key (Mongo.CallLog.deviceId d)) (Mongo.key (Mongo.CallLog.phoneNumber d))
    (Mongo.key (Mongo.CallLog.callType d)) (Mongo.key (Mongo.CallLog.callDate d)).




(** The limit [n] does not cut a result of [len] records. *)
Definition sql_uncut (n : Z) (len : nat) : Prop := n < 0 \/ (len <= Z.to_nat n)%nat.

Definition mongo_uncut (n : Z) (len : nat) : Prop := n = 0 \/ (len <= Z.to_nat (Z.abs n))%nat.

(** * Statements about the limit *)






(** * The batch as it arrives

    An element of the array [callLogs] is an object or [null]; an element
    of another kind (a number, a string, an array) has none of the
    properties that the handlers read and counts as an object without
    them.  Reading a property of [null] throws: the SQLite handler lets
    the exception escape, after the rows of the elements before it were
    handed to the statement; the MongoDB handler catches it before
    anything is written. *)
Inductive outcome : Type :=
| Answered (r : response)
| Thrown.

(** The elements are visited in turn until one is [null]; the boolean
    tells whether all were visited. *)
Fixpoint for_each {B} (f : Log.t -> M B) (logs : list (option Log.t)) : M (list B * bool) :=
  match logs with
  | [] => ret ([], true)
  | None :: _ => ret ([], false)
  | Some log :: rest =>
      b <- f log ;;
      p <- for_each f rest ;;
      ret (b :: fst p, snd p)
  end.

Definition sqlite_sync_array (deviceId : field string) (callLogs : option (list (option Log.t)))
  (s : Sqlite.db) : M (outcome * Sqlite.db) :=
  match callLogs with
  | None => ret (Answered (error 400 "Invalid call logs data"), s)
  | Some logs =>
      p <- for_each (Sqlite.sync_values deviceId) logs ;;
      let s' := {| Sqlite.devices_table := Sqlite.devices_table s;
                   Sqlite.call_logs_table :=
                     Sqlite.run_all (fst p) (Sqlite.call_logs_table s) |} in
      if snd p
      then ret (Answered
                  (res_json (success_message
                               ("Synced " +++ show_nat (List.length logs) +++ " call logs"))),
                s')
      else ret (Thrown, s')
  end.

Definition mongo_sync_array (deviceId : field string) (callLogs : option (list (option Log.t)))
  (m : Mongo.db) : M (outcome * Mongo.db) :=
  match callLogs with
  | None => ret (Answered (error 400 "Invalid call logs data"), m)
  | Some logs =>
      p <- for_each (Mongo.bulk_op deviceId) logs ;;
      if snd p
      then
        let (ok, c) := Mongo.bulk_write (fst p) (Mongo.calllogs m) in
        let m' := {| Mongo.devices := Mongo.devices m; Mongo.calllogs := c |} in
        if ok
        then ret (Answered
                    (res_json (success_message
                                 ("Synced " +++ show_nat (List.length logs) +++ " call logs"))),
                  m')
        else ret (Answered (error 500 "Failed to sync call logs"), m')
      else ret (Answered (error 500 "Failed to sync call logs"), m)
  end.

(** * Statements about the stores *)

(** The rows of device [d] in the SQLite server and the documents of
    device [d] in the MongoDB server. *)
Definition is_device (d : string) (r : Sqlite.devices.row) : bool :=
  Sqlite.sql_eq (Sqlite.devices.device_id r) (Some d).

Definition is_Device (d : string) (x : Mongo.Device.doc) : bool :=
  Mongo.filter_eq String.eqb (Val d) (Mongo.Device.deviceId x).

(** What a heartbeat has no business with: every column of a device but
    the last heartbeat. *)
Definition registration (r : Sqlite.devices.row) :
  option string * option string * option string * option Z :=
  (Sqlite.devices.device_id r, Sqlite.devices.device_name r,
   Sqlite.devices.phone_number r, Sqlite.devices.registered_at r).

Definition Registration (x : Mongo.Device.doc) :
  field string * field string * field string * field Z :=
  (Mongo.Device.deviceId x, Mongo.Device.deviceName x,
   Mongo.Device.phoneNumber x, Mongo.Device.registeredAt x).

(** The row that a registration writes when the clock reads [now]. *)
Definition registered_row (b : Register.body) (now : Z) : Sqlite.devices.row :=
  {| Sqlite.devices.device_id := Sqlite.bound (Register.deviceId b);
     Sqlite.devices.device_name := Sqlite.bound (Register.deviceName b);
     Sqlite.devices.phone_number := Sqlite.bound (Register.phoneNumber b);
     Sqlite.devices.registered_at := Sqlite.bound (Register.registeredAt b);
     Sqlite.devices.last_heartbeat := Some now |}.

(** A row of the store has the [id] of no row of the batch. *)
Definition untouched (rows : list Sqlite.call_logs.row) (x : Sqlite.call_logs.row) : bool :=
  negb (existsb (fun r => Sqlite.call_logs.id x =? Sqlite.call_logs.id r)%string rows).

(** Of the rows of a batch that have the same [id], the last. *)
Fixpoint last_of_each (rows : list Sqlite.call_logs.row) : list Sqlite.call_logs.row :=
  match rows with
  | [] => []
  | r :: rows' =>
      if negb (untouched rows' r) then last_of_each rows' else r :: last_of_each rows'
  end.

(** A record that carries an [id] and a [timestamp] of its own. *)
Definition complete (log : Log.t) : bool :=
  truthy_str (Log.id log) && truthy_num (Log.timestamp log).

(** The same record with another [deviceId]. *)
Definition with_device (x : field string) (log : Log.t) : Log.t :=
  {| Log.id := Log.id log;
     Log.deviceId := x;
     Log.phoneNumber := Log.phoneNumber log;
     Log.contactName := Log.contactName log;
     Log.callType := Log.callType log;
     Log.callDate := Log.callDate log;
     Log.callDuration := Log.callDuration log;
     Log.timestamp := Log.timestamp log |}.


Definition is_get (rq : request) : bool :=
  match fst (route_of rq) with
  | GET => true
  | _ => false
  end.

(** The requests whose handler writes to the devices, and those whose
    handler writes to the call logs. *)
Definition writes_devices (rq : request) : bool :=
  match rq with
  | DevicesRegister _ | DevicesHeartbeat _ | AdminClearDb => true
  | _ => false
  end.

Definition writes_call_logs (rq : request) : bool :=
  match rq with
  | CallLogsSync _ | CallLogsAdd _ | AdminClearDb => true
  | _ => false
  end.

(** The world after a request. *)
Definition world_after {S R} (m : M (R * S)) (w : world) : world := snd (m w).

(** One call log per [id], and one device per identity: what the primary
    keys and the unique indexes ask of a store. *)
Definition sqlite_keys (s : Sqlite.db) : Prop :=
  NoDup (map Sqlite.call_logs.id (Sqlite.call_logs_table s))
  /\ forall d, (List.length (filter (is_device d) (Sqlite.devices_table s)) <= 1)%nat.

Definition mongo_keys (m : Mongo.db) : Prop :=
  NoDup (map (fun o => Mongo.key (Mongo.CallLog.id o)) (Mongo.calllogs m))
  /\ NoDup (map (fun x => Mongo.key (Mongo.Device.deviceId x)) (Mongo.devices m)).

(** * Properties of ordering, limiting and grouping *)

Section OrderingFacts.
Context {A : Type}.
Variable ge : A -> A -> bool.

Lemma insert_perm (x : A) (l : list A) : Permutation (insert ge x l) (x :: l).
Proof.
  induction l as [|y l IH]; simpl.
  - apply Permutation_refl.
  - destruct (ge x y).
    + apply Permutation_refl.
    + apply perm_trans with (y :: x :: l).
      * now apply perm_skip.
      * apply perm_swap.
Qed.

Lemma order_by_perm (l : list A) : Permutation (order_by ge l) l.
Proof.
  induction l as [|x l IH]; simpl.
  - apply perm_nil.
  - apply perm_trans with (x :: order_by ge l).
    + apply insert_perm.
    + now apply perm_skip.
Qed.

Lemma order_by_In (x : A) (l : list A) : In x (order_by ge l) <-> In x l.
Proof.
  split; apply Permutation_in.
  - apply order_by_perm.
  - apply Permutation_sym, order_by_perm.
Qed.

Lemma order_by_length (l : list A) : List.length (order_by ge l) = List.length l.
Proof. apply Permutation_length, order_by_perm. Qed.

Hypothesis ge_total : forall a b, ge a b = false -> ge b a = true.

Lemma insert_hd (x y : A) (l : list A) :
  HdRel (fun a b => ge a b = true) y l -> ge y x = true ->
  HdRel (fun a b => ge a b = true) y (insert ge x l).
Proof.
  intros Hl Hyx. destruct l as [|z l]; simpl.
  - now constructor.
  - destruct (ge x z); constructor; trivial.
    now inversion Hl.
Qed.

Lemma insert_sorted (x : A) (l : list A) :
  Sorted (fun a b => ge a b = true) l ->
  Sorted (fun a b => ge a b = true) (insert ge x l).
Proof.
  induction 1 as [|y l Hs IH Hhd]; simpl.
  - repeat constructor.
  - destruct (ge x y) eqn:E.
    + constructor; [now constructor | now constructor].
    + constructor; [exact IH | apply insert_hd; auto].
Qed.

Lemma order_by_sorted (l : list A) :
  Sorted (fun a b => ge a b = true) (order_by ge l).
Proof.
  induction l as [|x l IH]; simpl.
  - constructor.
  - now apply insert_sorted.
Qed.
End OrderingFacts.

Lemma Sorted_firstn {A} (R : A -> A -> Prop) (n : nat) (l : list A) :
  Sorted R l -> Sorted R (firstn n l).
Proof.
  revert l; induction n as [|n IH]; intros l Hs; simpl.
  - constructor.
  - destruct l as [|x l]; [constructor|].
    inversion Hs as [|? ? Hs' Hhd]; subst.
    constructor; [now apply IH|].
    destruct l as [|y l]; [destruct n; constructor|].
    destruct n; simpl; [constructor|].
    inversion Hhd; subst. now constructor.
Qed.

Lemma In_firstn {A} (n : nat) (l : list A) (x : A) : In x (firstn n l) -> In x l.
Proof.
  revert l; induction n as [|n IH]; intros [|y l]; simpl; try tauto.
  intros [H|H]; [now left | right; now apply IH].
Qed.

Lemma firstn_enough {A} (n : nat) (l : list A) :
  (List.length l <= n)%nat -> firstn n l = l.
Proof.
  revert l; induction n as [|n IH]; intros [|y l]; simpl; intros H;
    try reflexivity; try lia.
  f_equal. apply IH. lia.
Qed.

Lemma firstn_short {A} (n : nat) (l : list A) : (List.length (firstn n l) <= n)%nat.
Proof.
  revert l; induction n as [|n IH]; intros [|y l]; simpl; try lia.
  specialize (IH l). lia.
Qed.

Lemma count_ge_total {K V} (a b : K * V * nat) :
  count_ge a b = false -> count_ge b a = true.
Proof.
  unfold count_ge. intros H.
  apply Nat.leb_gt in H. apply Nat.leb_le. lia.
Qed.

Lemma num_ge_total (a b : option Z) : num_ge a b = false -> num_ge b a = true.
Proof.
  destruct a as [x|], b as [y|]; simpl; try congruence.
  intros H. apply Z.leb_gt in H. apply Z.leb_le. lia.
Qed.

Lemma opt_eqb_eq (a b : option string) : opt_eqb a b = true <-> a = b.
Proof.
  destruct a as [x|], b as [y|]; simpl; split; try congruence.
  - intros H. apply String.eqb_eq in H. now subst.
  - intros H. inversion H. apply String.eqb_refl.
Qed.

Section GroupingFacts.
Context {K V : Type}.
Variable eqb : K -> K -> bool.




Hypothesis eqb_eq : forall a b, eqb a b = true <-> a = b.

Lemma bump_keys_In (k k0 : K) (v : V) (g : list (K * V * nat)) :
  In k0 (group_keys (bump eqb k v g)) -> k0 = k \/ In k0 (group_keys g).
Proof.
  induction g as [|[[k' v'] n] g IH]; simpl.
  - intros [H|[]]. now left.
  - destruct (eqb k k'); simpl.
    + intros H. now right.
    + intros [H|H]; [right; now left|].
      destruct (IH H) as [E|E]; [now left | right; now right].
Qed.

Lemma bump_NoDup (k : K) (v : V) (g : list (K * V * nat)) :
  NoDup (group_keys g) -> NoDup (group_keys (bump eqb k v g)).
Proof.
  induction g as [|[[k' v'] n] g IH]; simpl; intros H.
  - constructor; [intros [] | constructor].
  - inversion H as [|? ? Hnot Hnd]; subst.
    destruct (eqb k k') eqn:E; simpl.
    + now constructor.
    + constructor; [|now apply IH].
      intros Hin. apply bump_keys_In in Hin. destruct Hin as [Hk|Hin].
      * subst k'. assert (eqb k k = true) by now apply eqb_eq. congruence.
      * now apply Hnot.
Qed.

Lemma group_by_NoDup (rows : list (K * V)) : NoDup (group_keys (group_by eqb rows)).
Proof.
  unfold group_by.
  assert (forall g, NoDup (group_keys g) ->
            NoDup (group_keys (fold_left (fun g kv => bump eqb (fst kv) (snd kv) g) rows g)))
    as H.
  { induction rows as [|kv rows IH]; intros g Hg; simpl; [exact Hg|].
    apply IH. now apply bump_NoDup. }
  apply H. constructor.
Qed.
Lemma count_for_bump (k k0 : K) (v : V) (g : list (K * V * nat)) :
  count_for eqb k0 (bump eqb k v g)
  = if eqb k0 k then S (count_for eqb k0 g) else count_for eqb k0 g.
Proof.
  induction g as [|[[k' v'] n] g IH]; simpl.
  - now destruct (eqb k0 k).
  - destruct (eqb k k') eqn:E; simpl.
    + apply eqb_eq in E. subst k'. now destruct (eqb k0 k).
    + rewrite IH. destruct (eqb k0 k') eqn:E'; [|reflexivity].
      destruct (eqb k0 k) eqn:E''; [|reflexivity].
      apply eqb_eq in E', E''.
      assert (eqb k k' = true) by (apply eqb_eq; congruence).
      congruence.
Qed.

Lemma count_for_fold (rows : list (K * V)) (g : list (K * V * nat)) (k0 : K) :
  count_for eqb k0 (fold_left (fun g kv => bump eqb (fst kv) (snd kv) g) rows g)
  = (count_for eqb k0 g + rows_with eqb k0 rows)%nat.
Proof.
  revert g; induction rows as [|kv rows IH]; intros g; simpl.
  - unfold rows_with; simpl. lia.
  - rewrite IH, count_for_bump. unfold rows_with; simpl.
    destruct (eqb k0 (fst kv)); simpl; lia.
Qed.

Lemma count_for_In (g : list (K * V * nat)) (k : K) (v : V) (n : nat) :
  NoDup (group_keys g) -> In (k, v, n) g -> count_for eqb k g = n.
Proof.
  induction g as [|[[k' v'] n'] g IH]; simpl; intros Hnd Hin; [destruct Hin|].
  inversion Hnd as [|? ? Hk Hg]; subst.
  destruct Hin as [Hin|Hin].
  - inversion Hin; subst.
    assert (eqb k k = true) as -> by now apply eqb_eq. reflexivity.
  - destruct (eqb k k') eqn:E.
    + apply eqb_eq in E. subst k'. exfalso. apply Hk.
      apply in_map_iff. now exists (k, v, n).
    + now apply IH.
Qed.

(** The count of a group is the number of rows that have its key. *)
Lemma group_by_count (rows : list (K * V)) (k : K) (v : V) (n : nat) :
  In (k, v, n) (group_by eqb rows) -> n = rows_with eqb k rows.
Proof.
  intros Hin. symmetry.
  rewrite <- (count_for_In _ k v n (group_by_NoDup rows) Hin).
  unfold group_by. now rewrite count_for_fold.
Qed.

Lemma bump_In_pair (k k0 : K) (v v0 : V) (n0 : nat) (g : list (K * V * nat)) :
  In (k0, v0, n0) (bump eqb k v g) -> (k, v) = (k0, v0) \/ exists n, In (k0, v0, n) g.
Proof.
  induction g as [|[[k' v'] n'] g IH]; simpl.
  - intros [H|[]]. inversion H. now left.
  - destruct (eqb k k'); simpl.
    + intros [H|H]; right.
      * inversion H; subst. exists n'. now left.
      * exists n0. now right.
    + intros [H|H].
      * right. exists n0. now left.
      * destruct (IH H) as [E|[n E]]; [now left | right; exists n; now right].
Qed.

(** The value of a group is the value of a row that has its key. *)
Lemma group_by_In_pair (rows : list (K * V)) (k : K) (v : V) (n : nat) :
  In (k, v, n) (group_by eqb rows) -> In (k, v) rows.
Proof.
  unfold group_by.
  assert (forall g n,
            In (k, v, n) (fold_left (fun g kv => bump eqb (fst kv) (snd kv) g) rows g) ->
            In (k, v) rows \/ exists n', In (k, v, n') g) as H.
  { induction rows as [|kv rows IH]; intros g m; simpl.
    - intros Hin. right. now exists m.
    - intros Hin. destruct (IH _ _ Hin) as [Hr|[n' Hb]]; [left; now right|].
      apply bump_In_pair in Hb. destruct Hb as [E|Hg]; [|now right].
      left. left. destruct kv; simpl in E. exact E. }
  intros Hin. destruct (H [] n Hin) as [Hr|[n' []]]. exact Hr.
Qed.
End GroupingFacts.

(** * Device heartbeat *)

Lemma find_one_none {D} (p : D -> bool) (c : list D) :
  existsb p c = false -> Mongo.find_one p c = None.
Proof.
  induction c as [|d c IH]; simpl; [reflexivity|].
  destruct (p d); simpl; [discriminate|].
  intros H. now rewrite IH.
Qed.

Lemma update_heartbeat_no_match (ts : option Z) (dev : option string) (t : list Sqlite.devices.row) :
  existsb (fun r => Sqlite.sql_eq (Sqlite.devices.device_id r) dev) t = false ->
  Sqlite.update_heartbeat ts dev t = t.
Proof.
  induction t as [|r t IH]; simpl; [reflexivity|].
  destruct (Sqlite.sql_eq (Sqlite.devices.device_id r) dev); simpl; [discriminate|].
  intros H. f_equal. now apply IH.
Qed.

(** C9. A heartbeat whose [deviceId] matches no registered device leaves
    the store as it was and is answered with [{success: true}], in both
    servers; the answer is the same whatever the store holds, so the case
    cannot be told from an update that found its device. *)
Theorem heartbeat_unknown_device (b : Heartbeat.body) (s : Sqlite.db) (m : Mongo.db) :
  existsb (fun r => Sqlite.sql_eq (Sqlite.devices.device_id r)
                      (Sqlite.bound (Heartbeat.deviceId b)))
    (Sqlite.devices_table s) = false ->
  existsb (fun d => Mongo.filter_eq String.eqb (Heartbeat.deviceId b)
                      (Mongo.Device.deviceId d))
    (Mongo.devices m) = false ->
  Sqlite.heartbeat b s = (res_json success, s)
  /\ Mongo.heartbeat b m = (res_json success, m)
  /\ (forall s', fst (Sqlite.heartbeat b s') = res_json success)
  /\ (forall m', fst (Mongo.heartbeat b m') = res_json success).
Proof.
  intros Hs Hm. repeat split.
  - unfold Sqlite.heartbeat.
    rewrite update_heartbeat_no_match by exact Hs.
    now destruct s.
  - unfold Mongo.heartbeat, Mongo.update_heartbeat.
    rewrite find_one_none by exact Hm.
    now destruct m.
Qed.

(** * Statistics *)



Lemma Sorted_map {A B} (R : A -> A -> Prop) (Q : B -> B -> Prop) (f : A -> B) (l : list A) :
  (forall a b, R a b -> Q (f a) (f b)) -> Sorted R l -> Sorted Q (map f l).
Proof.
  intros Hf. induction 1 as [|x l Hs IH Hhd]; simpl; constructor; trivial.
  destruct Hhd; simpl; constructor. now apply Hf.
Qed.

Lemma count_ge_le {K V} (a b : K * V * nat) :
  count_ge a b = true -> (count_of b <= count_of a)%nat.
Proof. unfold count_ge. apply Nat.leb_le. Qed.

Lemma rows_with_map {R} (f : R -> option string * option string) (k : option string) (l : list R) :
  rows_with opt_eqb k (map f l)
  = List.length (filter (fun r => opt_eqb k (fst (f r))) l).
Proof.
  unfold rows_with. induction l as [|r l IH]; simpl; [reflexivity|].
  destruct (opt_eqb k (fst (f r))); simpl; now rewrite IH.
Qed.

(** C8. In every state of the store, [topContacts] of the statistics has at
    most ten entries, in descending order of [count], in both servers.  An
    entry stands for a phone number: its count is the number of stored call
    logs of that number and its contact name is that of one of them. *)
Theorem top_contacts_ten_sorted (s : Sqlite.db) (m : Mongo.db) :
  let ts := elements (prop "topContacts" (body (Sqlite.statistics s))) in
  let tm := elements (prop "topContacts" (body (Mongo.statistics m))) in
  (List.length ts <= 10)%nat
  /\ Sorted (fun a b => count_prop b <= count_prop a) ts
  /\ (List.length tm <= 10)%nat
  /\ Sorted (fun a b => count_prop b <= count_prop a) tm
  /\ (forall g, In g (Sqlite.top_contacts s) ->
        count_of g
        = List.length (filter (fun cl => opt_eqb (fst (fst g)) (Sqlite.call_logs.phone_number cl))
                         (Sqlite.call_logs_table s))
        /\ exists cl, In cl (Sqlite.call_logs_table s)
                      /\ Sqlite.call_logs.phone_number cl = fst (fst g)
                      /\ Sqlite.call_logs.contact_name cl = snd (fst g))
  /\ (forall g, In g (Mongo.top_contacts m) ->
        count_of g
        = List.length (filter (fun d => opt_eqb (fst (fst g)) (Mongo.key (Mongo.CallLog.phoneNumber d)))
                         (Mongo.calllogs m))
        /\ exists d, In d (Mongo.calllogs m)
                     /\ Mongo.key (Mongo.CallLog.phoneNumber d) = fst (fst g)
                     /\ Mongo.key (Mongo.CallLog.contactName d) = snd (fst g)).
Proof.
  cbv zeta.
  change (elements (prop "topContacts" (body (Sqlite.statistics s))))
    with (map (fun g => JObj [("phone_number", jstr (fst (fst g)));
                              ("contact_name", jstr (snd (fst g)));
                              ("count", JNum (Z.of_nat (count_of g)))])
            (Sqlite.top_contacts s)).
  change (elements (prop "topContacts" (body (Mongo.statistics m))))
    with (map (fun g => JObj [("_id", jstr (fst (fst g)));
                              ("contactName", jstr (snd (fst g)));
                              ("count", JNum (Z.of_nat (count_of g)))])
            (Mongo.top_contacts m)).
  rewrite !length_map.
  unfold Sqlite.top_contacts, Mongo.top_contacts, Sqlite.sql_limit.
  change (10 <? 0) with false. cbv iota.
  change (Z.to_nat 10) with 10%nat.
  split; [|split; [|split; [|split; [|split]]]].
  - apply firstn_short.
  - apply Sorted_map with (R := fun a b => count_ge a b = true).
    + intros a b H. apply count_ge_le in H.
      unfold count_prop; simpl. lia.
    + apply Sorted_firstn, order_by_sorted. intros a b. apply count_ge_total.
  - apply firstn_short.
  - apply Sorted_map with (R := fun a b => count_ge a b = true).
    + intros a b H. apply count_ge_le in H.
      unfold count_prop; simpl. lia.
    + apply Sorted_firstn, order_by_sorted. intros a b. apply count_ge_total.
  - intros [[k v] n] Hin. apply In_firstn, order_by_In in Hin. simpl. split.
    + rewrite (group_by_count opt_eqb opt_eqb_eq _ k v n Hin).
      apply rows_with_map.
    + apply (group_by_In_pair opt_eqb) in Hin. apply in_map_iff in Hin.
      destruct Hin as (cl & E & Hcl). inversion E. now exists cl.
  - intros [[k v] n] Hin. apply In_firstn, order_by_In in Hin. simpl. split.
    + rewrite (group_by_count opt_eqb opt_eqb_eq _ k v n Hin).
      apply rows_with_map.
    + apply (group_by_In_pair opt_eqb) in Hin. apply in_map_iff in Hin.
      destruct Hin as (d & E & Hd). inversion E. now exists d.
Qed.

(** * Query filters *)

Lemma present_some (p : option string) : present p -> exists v, p = Some v.
Proof. destruct p as [v|]; [now exists v | discriminate]. Qed.

Lemma sql_eq_some (c : option string) (v : string) :
  Sqlite.sql_eq c (Some v) = true <-> c = Some v.
Proof.
  destruct c as [x|]; simpl; split; try congruence.
  - intros H. apply String.eqb_eq in H. now subst.
  - intros H. inversion H. apply String.eqb_refl.
Qed.





Lemma filter_eq_val (s : string) (d : field string) :
  Mongo.filter_eq String.eqb (Val s) d = true <-> Mongo.key d = Some s.
Proof.
  destruct d as [| |x]; simpl; split; try congruence.
  - intros H. apply String.eqb_eq in H. now subst.
  - intros H. inversion H. apply String.eqb_refl.
Qed.

Lemma mongo_cond_eq (p : option string) (d : field string) :
  Mongo.cond_eq (Mongo.assigned p) d = true <-> (present p -> Mongo.key d = p).
Proof.
  unfold present, Mongo.assigned. destruct (truthy_param p) eqn:E.
  - destruct p as [v|]; [|discriminate]. unfold Mongo.cond_eq.
    rewrite filter_eq_val. tauto.
  - simpl. split; [discriminate | reflexivity].
Qed.

Lemma mongo_cond_gte (p : option string) (c : field Z) :
  Mongo.cond_gte (Mongo.assigned_int p) c = true
  <-> (present p -> exists v z d, p = Some v /\ parseInt v = Some z
                                  /\ Mongo.key c = Some d /\ z <= d).
Proof.
  unfold present, Mongo.assigned_int. destruct (truthy_param p) eqn:E.
  - destruct p as [v|]; [|discriminate]. split.
    + intros H _. destruct c as [| |d], (parseInt v) as [z|] eqn:P; simpl in H; try discriminate.
      exists v, z, d. apply Z.leb_le in H. auto.
    + intros H. destruct (H eq_refl) as (v' & z & d & Hv & Hz & Hc & Hle).
      inversion Hv; subst v'. rewrite Hz. destruct c; simpl in Hc; try discriminate.
      inversion Hc; subst. simpl. now apply Z.leb_le.
  - simpl. split; [discriminate | reflexivity].
Qed.

Lemma mongo_cond_lte (p : option string) (c : field Z) :
  Mongo.cond_lte (Mongo.assigned_int p) c = true
  <-> (present p -> exists v z d, p = Some v /\ parseInt v = Some z
                                  /\ Mongo.key c = Some d /\ d <= z).
Proof.
  unfold present, Mongo.assigned_int. destruct (truthy_param p) eqn:E.
  - destruct p as [v|]; [|discriminate]. split.
    + intros H _. destruct c as [| |d], (parseInt v) as [z|] eqn:P; simpl in H; try discriminate.
      exists v, z, d. apply Z.leb_le in H. auto.
    + intros H. destruct (H eq_refl) as (v' & z & d & Hv & Hz & Hc & Hle).
      inversion Hv; subst v'. rewrite Hz. destruct c; simpl in Hc; try discriminate.
      inversion Hc; subst. simpl. now apply Z.leb_le.
  - simpl. split; [discriminate | reflexivity].
Qed.

(** A document satisfies the filter built from a request exactly when it
    meets the filters that are present. *)
Lemma satisfies_meets (q : Query.t) (d : Mongo.CallLog.doc) :
  Mongo.satisfies (Mongo.make_filter q) d = true <-> meets_doc q d.
Proof.
  unfold Mongo.satisfies, Mongo.make_filter, meets_doc, meets. simpl.
  rewrite !andb_true_iff.
  rewrite !mongo_cond_eq, mongo_cond_gte, mongo_cond_lte.
  tauto.
Qed.


Lemma sql_limit_uncut {A} (n : Z) (l : list A) (len : nat) :
  sql_uncut n len -> (List.length l <= len)%nat -> Sqlite.sql_limit n l = l.
Proof.
  unfold sql_uncut, Sqlite.sql_limit. intros [H|H] Hl.
  - apply Z.ltb_lt in H. now rewrite H.
  - destruct (n <? 0); [reflexivity|]. apply firstn_enough. lia.
Qed.


Lemma limit_uncut {A} (n : Z) (l : list A) (len : nat) :
  mongo_uncut n len -> (List.length l <= len)%nat -> Mongo.limit_ n l = l.
Proof.
  unfold mongo_uncut, Mongo.limit_. intros [H|H] Hl.
  - subst n. reflexivity.
  - destruct (n =? 0); [reflexivity|]. apply firstn_enough. lia.
Qed.

Lemma filter_length_le {A} (f : A -> bool) (l : list A) :
  (List.length (filter f l) <= List.length l)%nat.
Proof.
  induction l as [|x l IH]; simpl; [lia|]. destruct (f x); simpl; lia.
Qed.




Lemma find_complete (q : Query.t) (n : Z) (m : Mongo.db) d :
  In d (Mongo.calllogs m) -> meets_doc q d ->
  mongo_uncut n (List.length (Mongo.calllogs m)) ->
  In d (Mongo.find q n m).
Proof.
  unfold Mongo.find. intros Hin Hm Hn.
  rewrite (limit_uncut n _ _ Hn).
  - apply order_by_In, filter_In. split; [exact Hin | now apply satisfies_meets].
  - rewrite order_by_length. apply filter_length_le.
Qed.




(** A request that some document meets can be cast: its bounds are
    numbers. *)
Lemma meets_castable (q : Query.t) (a b c : option string) (d : option Z) :
  meets q a b c d ->
  Mongo.castable (Mongo.assigned_int (Query.startDate q))
  && Mongo.castable (Mongo.assigned_int (Query.endDate q)) = true.
Proof.
  intros (_ & _ & _ & Hs & He). unfold Mongo.assigned_int, present in *.
  apply andb_true_iff. split.
  - destruct (truthy_param (Query.startDate q)); [|reflexivity].
    destruct (Hs eq_refl) as (v & z & x & Hv & Hz & _). now rewrite Hv, Hz.
  - destruct (truthy_param (Query.endDate q)); [|reflexivity].
    destruct (He eq_refl) as (v & z & x & Hv & Hz & _). now rewrite Hv, Hz.
Qed.

Lemma mongo_returns (q : Query.t) (n : Z) (m : Mongo.db) d :
  parsed_limit (Query.limit q) = Some n ->
  mongo_uncut n (List.length (Mongo.calllogs m)) ->
  In d (Mongo.calllogs m) -> meets_doc q d ->
  status (Mongo.get_call_logs q m) = 200
  /\ In (Mongo.CallLog.to_json d) (elements (prop "callLogs" (body (Mongo.get_call_logs q m)))).
Proof.
  intros Hn Hcut Hin Hm. unfold Mongo.get_call_logs. rewrite Hn.
  change (Mongo.Filter.gte (Mongo.make_filter q))
    with (Mongo.assigned_int (Query.startDate q)).
  change (Mongo.Filter.lte (Mongo.make_filter q))
    with (Mongo.assigned_int (Query.endDate q)).
  rewrite (meets_castable q _ _ _ _ Hm). simpl.
  split; [reflexivity|].
  apply in_map. now apply find_complete.
Qed.


(** ** What the limit reaches *)

Lemma filter_every {A} (p : A -> bool) (l : list A) :
  (forall x, In x l -> p x = true) -> filter p l = l.
Proof.
  induction l as [|x l IH]; simpl; intros H; [reflexivity|].
  rewrite (H x (or_introl eq_refl)). f_equal. apply IH. intros y Hy. apply H. now right.
Qed.













(** * Upsert of call logs *)

(** [INSERT OR REPLACE] keeps the primary key unique and leaves, under the
    key of the new row, the new row and nothing of the old one. *)
Lemma replace_call_log_spec (r : Sqlite.call_logs.row) (t : list Sqlite.call_logs.row) :
  NoDup (map Sqlite.call_logs.id t) ->
  NoDup (map Sqlite.call_logs.id (Sqlite.replace_call_log r t))
  /\ In r (Sqlite.replace_call_log r t)
  /\ (forall r', In r' (Sqlite.replace_call_log r t) ->
        Sqlite.call_logs.id r' = Sqlite.call_logs.id r -> r' = r).
Proof.
  unfold Sqlite.replace_call_log. intros Hnd. split; [|split].
  - induction t as [|x t IH]; simpl.
    + constructor; [intros [] | constructor].
    + inversion Hnd as [|? ? Hx Ht]; subst.
      destruct (Sqlite.call_logs.id x =? Sqlite.call_logs.id r)%string eqn:E; simpl.
      * now apply IH.
      * constructor; [|now apply IH].
        rewrite map_app, in_app_iff. intros [H|[H|[]]].
        -- apply Hx. apply in_map_iff in H. destruct H as (y & Hy & Hin).
           apply filter_In in Hin. apply in_map_iff. exists y. tauto.
        -- apply String.eqb_neq in E. congruence.
  - apply in_app_iff. right. now left.
  - intros r' Hin Hid. apply in_app_iff in Hin. destruct Hin as [Hin|[Hin|[]]].
    + apply filter_In in Hin. destruct Hin as [_ Hne].
      apply negb_true_iff, String.eqb_neq in Hne. contradiction.
    + now symmetry.
Qed.

Lemma find_one_split {D} (p : D -> bool) (c pre post : list D) (d : D) :
  Mongo.find_one p c = Some (pre, d, post) -> c = pre ++ d :: post /\ p d = true.
Proof.
  revert pre; induction c as [|x c IH]; intros pre; simpl; [discriminate|].
  destruct (p x) eqn:E.
  - intros H. inversion H; subst. now split.
  - destruct (Mongo.find_one p c) as [[[pre' y] post']|]; [|discriminate].
    intros H. inversion H; subst. destruct (IH pre' eq_refl) as [-> Hp].
    now split.
Qed.

Lemma unique_id_not_in (d : Mongo.CallLog.doc) (others : list Mongo.CallLog.doc) :
  Mongo.unique_id d others = true ->
  ~ In (Mongo.key (Mongo.CallLog.id d))
       (map (fun o => Mongo.key (Mongo.CallLog.id o)) others).
Proof.
  unfold Mongo.unique_id. intros H Hin.
  apply in_map_iff in Hin. destruct Hin as (o & Hk & Ho).
  rewrite forallb_forall in H. specialize (H o Ho).
  apply negb_true_iff in H.
  assert (opt_eqb (Mongo.key (Mongo.CallLog.id o)) (Mongo.key (Mongo.CallLog.id d)) = true)
    by now apply opt_eqb_eq.
  congruence.
Qed.

(** The unique index on [id] holds after every operation of a bulk write
    that succeeds. *)
Lemma update_one_unique (op : string * Mongo.CallLog.doc) (c c' : list Mongo.CallLog.doc) :
  NoDup (map (fun o => Mongo.key (Mongo.CallLog.id o)) c) ->
  Mongo.update_one op c = Some c' ->
  NoDup (map (fun o => Mongo.key (Mongo.CallLog.id o)) c').
Proof.
  destruct op as [i u]. unfold Mongo.update_one. intros Hnd.
  destruct (Mongo.find_one _ c) as [[[pre d] post]|] eqn:F.
  - apply find_one_split in F. destruct F as [-> _].
    destruct (Mongo.unique_id _ (pre ++ post)) eqn:U; [|discriminate].
    intros H. inversion H; subst c'. apply unique_id_not_in in U.
    rewrite map_app in *. simpl in *.
    apply NoDup_remove_1 in Hnd.
    apply (NoDup_Add (Add_app _ _ _)). now split.
  - destruct (Mongo.unique_id _ c) eqn:U; [|discriminate].
    intros H. inversion H; subst c'. apply unique_id_not_in in U.
    rewrite map_app. simpl.
    apply (NoDup_Add (Add_app _ _ [])). rewrite app_nil_r. now split.
Qed.

Lemma run_all_unique (rows t : list Sqlite.call_logs.row) :
  NoDup (map Sqlite.call_logs.id t) ->
  NoDup (map Sqlite.call_logs.id (Sqlite.run_all rows t)).
Proof.
  revert t; induction rows as [|r rows IH]; intros t H; simpl; [exact H|].
  apply IH. now apply replace_call_log_spec.
Qed.

Lemma run_all_In (rows t : list Sqlite.call_logs.row) (r : Sqlite.call_logs.row) :
  In r (Sqlite.run_all rows t) -> In r t \/ In r rows.
Proof.
  revert t; induction rows as [|x rows IH]; intros t; simpl; [tauto|].
  intros H. destruct (IH _ H) as [H1|H1]; [|tauto].
  unfold Sqlite.replace_call_log in H1. apply in_app_iff in H1.
  destruct H1 as [H1|[H1|[]]].
  - apply filter_In in H1. tauto.
  - subst. right. now left.
Qed.

(** Whatever is synchronised, the SQLite server holds one call log per
    [id]. *)
Lemma sqlite_sync_unique (b : Sync.body) (s : Sqlite.db) (w : world) :
  NoDup (map Sqlite.call_logs.id (Sqlite.call_logs_table s)) ->
  NoDup (map Sqlite.call_logs.id (Sqlite.call_logs_table (after (Sqlite.sync b s) w))).
Proof.
  unfold after, Sqlite.sync, bind, ret.
  destruct (Sync.callLogs b) as [l|]; simpl; [|trivial].
  destruct (mapM _ l w) as [rows w']. simpl. apply run_all_unique.
Qed.

Lemma bulk_write_unique (ops : list (string * Mongo.CallLog.doc)) (c : list Mongo.CallLog.doc) :
  NoDup (map (fun o => Mongo.key (Mongo.CallLog.id o)) c) ->
  NoDup (map (fun o => Mongo.key (Mongo.CallLog.id o)) (snd (Mongo.bulk_write ops c))).
Proof.
  revert c; induction ops as [|op ops IH]; intros c H; simpl; [exact H|].
  destruct (Mongo.update_one op c) as [c'|] eqn:E; [|exact H].
  apply IH. now apply (update_one_unique op c c').
Qed.

(** Whatever is synchronised, and whether the bulk write succeeds or not,
    the MongoDB server holds one call log per [id]. *)
Lemma mongo_sync_unique (b : Sync.body) (m : Mongo.db) (w : world) :
  NoDup (map (fun o => Mongo.key (Mongo.CallLog.id o)) (Mongo.calllogs m)) ->
  NoDup (map (fun o => Mongo.key (Mongo.CallLog.id o))
           (Mongo.calllogs (after (Mongo.sync b m) w))).
Proof.
  unfold after, Mongo.sync, bind, ret. intros H.
  destruct (Sync.callLogs b) as [l|]; simpl; [|trivial].
  destruct (mapM _ l w) as [ops w'].
  pose proof (bulk_write_unique ops (Mongo.calllogs m) H) as Hu.
  destruct (Mongo.bulk_write ops (Mongo.calllogs m)) as [[|] c]; simpl in *; exact Hu.
Qed.

(** C2. Record [c1] is stored by device A1 and sent again with the same
    [id], this time without [contactName] and [callDuration].  The SQLite
    server replaces the row, and the two columns are NULL; the MongoDB
    server updates the fields that were sent and the document keeps the
    [contactName] and [callDuration] of the first submission.  Each store
    holds one record under the [id]. *)
Theorem resubmission_keeps_fields_in_mongo :
  let s := after (Sqlite.sync (batch "A1" [c1_again]) sqlite_A1_c1) (world_at t0 []) in
  let m := after (Mongo.sync (batch "A1" [c1_again]) mongo_A1_c1) (world_at t0 []) in
  map (fun r => (Sqlite.call_logs.id r, Sqlite.call_logs.call_type r,
                 Sqlite.call_logs.contact_name r, Sqlite.call_logs.call_duration r))
    (Sqlite.call_logs_table s)
  = [("c1", Some "incoming", None, None)]
  /\ map (fun d => (Mongo.CallLog.id d, Mongo.CallLog.callType d,
                    Mongo.CallLog.contactName d, Mongo.CallLog.callDuration d))
       (Mongo.calllogs m)
     = [(Val "c1", Val "incoming", Val "Bob", Val 60)].
Proof. split; reflexivity. Qed.

(** * Identity and time of a synchronised record *)

(** C3. Two records without [id] are synchronised in one batch by the
    SQLite server, within one millisecond, and the two draws of
    [Math.random()] fall in the same thousandth: both records are given the
    same identity, the second replaces the first, and one record is stored
    while the answer counts two. *)
Theorem synthesized_ids_collide :
  let w := world_at t0 same_thousandth in
  let b := batch "A1" [call_555; call_555] in
  prop "message" (body (answer (Sqlite.sync b sqlite_A1) w))
  = Some (JStr "Synced 2 call logs")
  /\ map Sqlite.call_logs.id (Sqlite.call_logs_table (after (Sqlite.sync b sqlite_A1) w))
     = ["1700000000000_123"].
Proof. split; reflexivity. Qed.

(** A [timestamp] that is falsy is replaced by a reading of the clock in
    the values that both servers store, and an [id] that is falsy by a
    synthesized one in the row of the SQLite server and in the filter of
    the MongoDB upsert. *)
Lemma falsy_is_missing (deviceId : field string) (log : Log.t) (w : world) :
  (truthy_num (Log.timestamp log) = false ->
     exists n, (ticks w <= n)%nat
       /\ Sqlite.call_logs.timestamp (fst (Sqlite.sync_values deviceId log w)) = clock w n
       /\ Mongo.CallLog.timestamp (snd (fst (Mongo.bulk_op deviceId log w))) = Val (clock w n))
  /\ (truthy_str (Log.id log) = false ->
        Sqlite.call_logs.id (fst (Sqlite.sync_values deviceId log w))
        = show (clock w (ticks w)) +++ "_" +++ show (floor1000 (dice w (rolls w)))
        /\ fst (fst (Mongo.bulk_op deviceId log w))
           = show (clock w (ticks w)) +++ "_" +++ text (dice w (rolls w))).
Proof.
  unfold Sqlite.sync_values, Mongo.bulk_op, Sqlite.new_id, Mongo.new_id,
    or_str, or_num, bind, ret, Date_now, Math_random.
  split.
  - intros Ht.
    destruct (Log.timestamp log) as [| |z]; try rewrite Ht;
      destruct (Log.id log) as [| |i]; try destruct (truthy_str (Val i));
        simpl; eexists; (split; [|split; reflexivity]); lia.
  - intros Hi.
    destruct (Log.id log) as [| |i]; try rewrite Hi;
      destruct (Log.timestamp log) as [| |z]; try destruct (truthy_num (Val z));
        simpl; split; reflexivity.
Qed.

Lemma sync_values_world (deviceId : field string) (log : Log.t) (w : world) :
  clock (snd (Sqlite.sync_values deviceId log w)) = clock w
  /\ dice (snd (Sqlite.sync_values deviceId log w)) = dice w.
Proof.
  unfold Sqlite.sync_values, Sqlite.new_id, or_str, or_num, bind, ret, Date_now, Math_random.
  destruct (Log.id log) as [| |i]; try destruct (truthy_str (Val i));
    destruct (Log.timestamp log) as [| |z]; try destruct (truthy_num (Val z));
      simpl; split; reflexivity.
Qed.

Lemma identities_at_In (t z : Z) :
  0 <= z < 1000 -> In (show t +++ "_" +++ show z) (identities_at t).
Proof.
  intros Hz. unfold identities_at. apply in_map_iff.
  exists (Z.to_nat z). split.
  - now rewrite Z2Nat.id by lia.
  - apply in_seq. lia.
Qed.

Lemma mapM_sync_ids (deviceId : field string) (logs : list Log.t) (w : world) (t : Z) :
  (forall n, clock w n = t) ->
  (forall n, 0 <= floor1000 (dice w n) < 1000) ->
  Forall (fun l => truthy_str (Log.id l) = false) logs ->
  Forall (fun r => In (Sqlite.call_logs.id r) (identities_at t))
    (fst (mapM (Sqlite.sync_values deviceId) logs w)).
Proof.
  revert w; induction logs as [|log logs IH]; intros w Hc Hd Hl; simpl.
  - constructor.
  - inversion Hl as [|? ? Hlog Hlogs]; subst.
    unfold bind, ret.
    pose proof (sync_values_world deviceId log w) as [Hw1 Hw2].
    pose proof (proj2 (falsy_is_missing deviceId log w) Hlog) as [Hid _].
    destruct (Sqlite.sync_values deviceId log w) as [r w1]. simpl in *.
    specialize (IH w1).
    destruct (mapM (Sqlite.sync_values deviceId) logs w1) as [rs w2]. simpl in *.
    constructor.
    + rewrite Hid, Hc. now apply identities_at_In.
    + apply IH; trivial.
      * intros n. now rewrite Hw1.
      * intros n. now rewrite Hw2.
Qed.

(** X13.  While the clock stands, the SQLite server has a thousand identities to
    give: a batch of records without [id] adds at most a thousand records
    to the store, however many it carries. *)
Lemma sqlite_identities_run_out (dev : string) (logs : list Log.t) (s : Sqlite.db)
  (w : world) (t : Z) :
  (forall n, clock w n = t) ->
  (forall n, 0 <= floor1000 (dice w n) < 1000) ->
  Forall (fun l => truthy_str (Log.id l) = false) logs ->
  NoDup (map Sqlite.call_logs.id (Sqlite.call_logs_table s)) ->
  (List.length (Sqlite.call_logs_table (after (Sqlite.sync (batch dev logs) s) w))
   <= List.length (Sqlite.call_logs_table s) + 1000)%nat.
Proof.
  intros Hc Hd Hl Hnd.
  pose proof (sqlite_sync_unique (batch dev logs) s w Hnd) as Hu.
  pose proof (mapM_sync_ids (Val dev) logs w t Hc Hd Hl) as Hids.
  unfold after, Sqlite.sync, bind, ret in *. simpl in *.
  destruct (mapM (Sqlite.sync_values (Val dev)) logs w) as [rows w']. simpl in *.
  apply NoDup_incl_length
    with (l' := map Sqlite.call_logs.id (Sqlite.call_logs_table s) ++ identities_at t) in Hu.
  - rewrite length_app, !length_map in Hu. unfold identities_at in Hu.
    rewrite length_map, length_seq in Hu. exact Hu.
  - intros i Hi. apply in_map_iff in Hi. destruct Hi as (r & <- & Hr).
    apply in_app_iff. apply run_all_In in Hr. destruct Hr as [Hr|Hr].
    + left. now apply in_map.
    + right. rewrite Forall_forall in Hids. now apply Hids.
Qed.

(** C10. A record whose [id] is the empty string and whose [timestamp] is
    0 is synchronised.  Both servers store the reading of the clock as its
    [timestamp].  The SQLite server stores it under a synthesized [id]; the
    MongoDB server synthesizes an [id] for the filter of the upsert only,
    and the document is stored with the empty [id] that was sent.  A batch
    of two records whose [id] is [null] is refused by the unique index of
    the MongoDB server after the first of them. *)
Theorem falsy_id_is_stored_by_mongo :
  let w := world_at t0 same_thousandth in
  map (fun r => (Sqlite.call_logs.id r, Sqlite.call_logs.timestamp r))
    (Sqlite.call_logs_table (after (Sqlite.sync (batch "A1" [call_falsy]) sqlite_A1) w))
  = [("1700000000000_123", t0)]
  /\ map (fun d => (Mongo.CallLog.id d, Mongo.CallLog.timestamp d))
       (Mongo.calllogs (after (Mongo.sync (batch "A1" [call_falsy]) mongo_A1) w))
     = [(Val "", Val t0)]
  /\ status (answer (Mongo.sync (batch "A1" [call_null_id; call_null_id]) mongo_A1) w) = 500
  /\ map Mongo.CallLog.id
       (Mongo.calllogs (after (Mongo.sync (batch "A1" [call_null_id; call_null_id]) mongo_A1) w))
     = [Null].
Proof. repeat split; reflexivity. Qed.

(** * The join of call logs with devices *)



Lemma number_returns (p : string) (limit : option string) (n : Z) (s : Sqlite.db) r :
  parsed_limit limit = Some n ->
  sql_uncut n (List.length (Sqlite.left_join s)) ->
  In r (Sqlite.left_join s) ->
  Sqlite.call_logs.phone_number (fst r) = Some p ->
  In (Sqlite.selected_number r)
    (elements (prop "callLogs" (body (Sqlite.get_call_logs_number p limit s)))).
Proof.
  intros Hn Hcut Hin Hp. unfold Sqlite.get_call_logs_number. rewrite Hn. simpl.
  apply in_map. unfold Sqlite.number_rows.
  rewrite (sql_limit_uncut n _ _ Hcut).
  - apply order_by_In, filter_In. split; [exact Hin|]. now apply sql_eq_some.
  - rewrite order_by_length. apply filter_length_le.
Qed.








(** * The HTTP surface *)

(** C1, as the code has it.  Every route of the interface table is
    registered by the SQLite server; the MongoDB server registers them all
    but three, [POST /api/call-logs],
    [GET /api/call-logs/number/:phoneNumber] and
    [DELETE /api/admin/clear-db].  A request on a route that both register
    is handled by both, from the same input, and two answers of status 200
    have the same properties; a request on one of the three routes is
    handled by the SQLite server and finds no handler in the MongoDB
    server, which leaves its store as it was. *)
Theorem mongo_serves_six_of_nine_routes :
  (forall r, In r interface_table ->
     registered Sqlite.routes r = true
     /\ registered Mongo.routes r = negb (registered sqlite_only r))
  /\ (forall rq s m w,
        registered Mongo.routes (route_of rq) = true ->
        exists a b,
          answer (Sqlite.app rq s) w = Some a
          /\ answer (Mongo.app rq m) w = Some b
          /\ (status a = 200 -> status b = 200 -> keys (body a) = keys (body b)))
  /\ (forall rq s m w,
        registered Mongo.routes (route_of rq) = false ->
        answer (Mongo.app rq m) w = None
        /\ after (Mongo.app rq m) w = m
        /\ exists a, answer (Sqlite.app rq s) w = Some a).
Proof.
  split; [|split].
  - intros r Hr. unfold interface_table in Hr. simpl in Hr.
    repeat (destruct Hr as [<-|Hr]; [split; reflexivity|]). destruct Hr.
  - intros rq s m w H.
    destruct rq as [b|b| |b|b|q|p l| |]; try discriminate H;
      unfold answer, Sqlite.app, Mongo.app, bind, ret.
    + unfold Sqlite.register, Mongo.register, bind, ret, Date_now. simpl.
      do 2 eexists. repeat split.
    + simpl. do 2 eexists. repeat split.
    + simpl. do 2 eexists. repeat split.
    + unfold Sqlite.sync, Mongo.sync, bind, ret.
      destruct (Sync.callLogs b) as [l|].
      * destruct (mapM (Sqlite.sync_values _) l w) as [rows w1].
        destruct (mapM (Mongo.bulk_op _) l w) as [ops w2].
        destruct (Mongo.bulk_write ops _) as [[|] c]; simpl;
          do 2 eexists; repeat split; intros; try reflexivity; discriminate.
      * simpl. do 2 eexists. repeat split.
    + unfold Sqlite.get_call_logs, Mongo.get_call_logs.
      destruct (parsed_limit (Query.limit q)) as [n|].
      * destruct (Mongo.castable _ && Mongo.castable _); simpl;
          do 2 eexists; repeat split; intros; try reflexivity; discriminate.
      * simpl. do 2 eexists. repeat split.
    + simpl. do 2 eexists. repeat split.
  - intros rq s m w H.
    destruct rq as [b|b| |b|b|q|p l| |]; try discriminate H;
      unfold answer, after, Sqlite.app, Mongo.app, bind, ret.
    + repeat split. destruct (Sqlite.add b s w) as [[a s'] w']. simpl. now exists a.
    + repeat split. simpl. eexists. reflexivity.
    + repeat split. simpl. eexists. reflexivity.
Qed.

(** * The statements at work on the scenarios *)

Lemma heartbeat_unknown_device_witness :
  Sqlite.heartbeat heartbeat_B2 sqlite_A1 = (res_json success, sqlite_A1)
  /\ Mongo.heartbeat heartbeat_B2 mongo_A1 = (res_json success, mongo_A1).
Proof.
  destruct (heartbeat_unknown_device heartbeat_B2 sqlite_A1 mongo_A1 eq_refl eq_refl)
    as (Hs & Hm & _).
  split; [exact Hs | exact Hm].
Defined.

Lemma top_contacts_ten_sorted_witness :
  count_of (Some "555", Some "Bob", 1%nat)
  = List.length (filter (fun cl => opt_eqb (Some "555") (Sqlite.call_logs.phone_number cl))
                   (Sqlite.call_logs_table sqlite_A1_c1))
  /\ count_of (Some "555", Some "Bob", 1%nat)
     = List.length (filter (fun d => opt_eqb (Some "555")
                                        (Mongo.key (Mongo.CallLog.phoneNumber d)))
                      (Mongo.calllogs mongo_A1_c1)).
Proof.
  destruct (top_contacts_ten_sorted sqlite_A1_c1 mongo_A1_c1) as (_ & _ & _ & _ & Hs & Hm).
  split.
  - apply (Hs (Some "555", Some "Bob", 1%nat)). left. reflexivity.
  - apply (Hm (Some "555", Some "Bob", 1%nat)). left. reflexivity.
Defined.





Lemma mongo_serves_six_of_nine_routes_witness :
  registered Sqlite.routes (GET, "/api/statistics") = true
  /\ registered Mongo.routes (GET, "/api/statistics")
     = negb (registered sqlite_only (GET, "/api/statistics")).
Proof.
  apply (proj1 mongo_serves_six_of_nine_routes).
  simpl. tauto.
Defined.

(** C1, as it was stated, fails on the route of the history of a number:
    it is in the interface table and the SQLite server answers it, the
    MongoDB server has no handler for it. *)
Lemma mongo_lacks_number_route :
  In (route_of (CallLogsNumber "555" None)) interface_table
  /\ registered Sqlite.routes (route_of (CallLogsNumber "555" None)) = true
  /\ registered Mongo.routes (route_of (CallLogsNumber "555" None)) = false
  /\ option_map status (answer (Sqlite.app (CallLogsNumber "555" None) sqlite_A1_c1) (world_at t0 []))
     = Some 200
  /\ answer (Mongo.app (CallLogsNumber "555" None) mongo_A1_c1) (world_at t0 []) = None.
Proof.
  split; [simpl; tauto|]. repeat split; reflexivity.
Qed.


(** * Registration and heartbeat of devices *)

Lemma filter_none {A} (p : A -> bool) (l : list A) :
  (forall x, In x l -> p x = false) -> filter p l = [].
Proof.
  induction l as [|x l IH]; simpl; intros H; [reflexivity|].
  rewrite (H x (or_introl eq_refl)). apply IH. intros y Hy. apply H. now right.
Qed.

Lemma filter_twice {A} (p : A -> bool) (l : list A) : filter p (filter p l) = filter p l.
Proof.
  induction l as [|x l IH]; simpl; [reflexivity|].
  destruct (p x) eqn:E; simpl; [rewrite E; now f_equal | exact IH].
Qed.

Lemma sql_eq_sym (a b : option string) : Sqlite.sql_eq a b = Sqlite.sql_eq b a.
Proof. destruct a, b; simpl; trivial. apply String.eqb_sym. Qed.

Lemma replace_device_others (r : Sqlite.devices.row) (t : list Sqlite.devices.row) (d : string) :
  Sqlite.devices.device_id r <> Some d ->
  filter (is_device d) (Sqlite.replace_device r t) = filter (is_device d) t.
Proof.
  intros Hr. unfold Sqlite.replace_device. rewrite filter_app. simpl.
  assert (is_device d r = false) as ->.
  { unfold is_device. destruct (Sqlite.sql_eq _ _) eqn:E; [|reflexivity].
    apply sql_eq_some in E. contradiction. }
  rewrite app_nil_r.
  induction t as [|x t IH]; simpl; [reflexivity|].
  destruct (Sqlite.sql_eq (Sqlite.devices.device_id x) (Sqlite.devices.device_id r)) eqn:E; simpl.
  - assert (is_device d x = false) as ->; [|exact IH].
    unfold is_device. destruct (Sqlite.sql_eq (Sqlite.devices.device_id x) (Some d)) eqn:E';
      [|reflexivity].
    apply sql_eq_some in E'. rewrite E' in E.
    rewrite sql_eq_sym in E. apply sql_eq_some in E. contradiction.
  - destruct (is_device d x); [now f_equal | exact IH].
Qed.

Lemma replace_device_own (r : Sqlite.devices.row) (t : list Sqlite.devices.row) (d : string) :
  Sqlite.devices.device_id r = Some d ->
  filter (is_device d) (Sqlite.replace_device r t) = [r].
Proof.
  intros Hr. unfold Sqlite.replace_device. rewrite filter_app, Hr. simpl.
  assert (is_device d r = true) as -> by (unfold is_device; now apply sql_eq_some).
  rewrite filter_none; [reflexivity|].
  intros x Hx. apply filter_In in Hx. destruct Hx as [_ Hx].
  unfold is_device. now apply negb_true_iff.
Qed.


Lemma update_heartbeat_registration (ts : option Z) (dev : option string)
  (t : list Sqlite.devices.row) :
  map registration (Sqlite.update_heartbeat ts dev t) = map registration t.
Proof.
  unfold Sqlite.update_heartbeat. rewrite map_map. apply map_ext.
  intros r. now destruct (Sqlite.sql_eq _ _).
Qed.

Lemma update_heartbeat_beat (ts : option Z) (dev : option string)
  (t : list Sqlite.devices.row) :
  map Sqlite.devices.last_heartbeat (Sqlite.update_heartbeat ts dev t)
  = map (fun r => if Sqlite.sql_eq (Sqlite.devices.device_id r) dev
                  then ts else Sqlite.devices.last_heartbeat r) t.
Proof.
  unfold Sqlite.update_heartbeat. rewrite map_map. apply map_ext.
  intros r. now destruct (Sqlite.sql_eq _ _).
Qed.

(** X3.  A heartbeat in the SQLite server changes the last heartbeat of the
    rows of its device and nothing else: no row is added or removed, the
    identity, name, phone number and registration time of every row stay,
    the last heartbeat of the other devices stays, and so do the call
    logs. *)
Theorem sqlite_heartbeat_only_beats (b : Heartbeat.body) (s : Sqlite.db) :
  let s' := snd (Sqlite.heartbeat b s) in
  map registration (Sqlite.devices_table s') = map registration (Sqlite.devices_table s)
  /\ map Sqlite.devices.last_heartbeat (Sqlite.devices_table s')
     = map (fun r => if Sqlite.sql_eq (Sqlite.devices.device_id r)
                          (Sqlite.bound (Heartbeat.deviceId b))
                     then Sqlite.bound (Heartbeat.timestamp b)
                     else Sqlite.devices.last_heartbeat r)
         (Sqlite.devices_table s)
  /\ Sqlite.call_logs_table s' = Sqlite.call_logs_table s.
Proof.
  cbv zeta. simpl. split; [|split; [|reflexivity]].
  - apply update_heartbeat_registration.
  - apply update_heartbeat_beat.
Qed.

Lemma update_heartbeat_own (ts : option Z) (d : string) (t : list Sqlite.devices.row) :
  filter (is_device d) (Sqlite.update_heartbeat ts (Some d) t)
  = Sqlite.update_heartbeat ts (Some d) (filter (is_device d) t).
Proof.
  unfold is_device.
  induction t as [|r t IH]; simpl; [reflexivity|].
  destruct (Sqlite.sql_eq (Sqlite.devices.device_id r) (Some d)) eqn:E; simpl; rewrite E.
  - f_equal. exact IH.
  - exact IH.
Qed.

(** X5.  A device registers and then sends a heartbeat: the SQLite server holds
    one row for it, with the values of the registration and the time of
    the heartbeat. *)
Theorem sqlite_register_then_heartbeat (b : Register.body) (h : Heartbeat.body)
  (s : Sqlite.db) (w : world) (d : string) :
  Register.deviceId b = Val d ->
  Heartbeat.deviceId h = Val d ->
  let s' := snd (Sqlite.heartbeat h (after (Sqlite.register b s) w)) in
  map registration (filter (is_device d) (Sqlite.devices_table s'))
  = [registration (registered_row b 0)]
  /\ map Sqlite.devices.last_heartbeat (filter (is_device d) (Sqlite.devices_table s'))
     = [Sqlite.bound (Heartbeat.timestamp h)].
Proof.
  intros Hb Hh. cbv zeta.
  unfold after, Sqlite.register, bind, ret, Date_now. simpl.
  fold (registered_row b (clock w (ticks w))).
  rewrite Hh. simpl Sqlite.bound.
  rewrite update_heartbeat_own.
  rewrite replace_device_own by (unfold registered_row; simpl; now rewrite Hb).
  unfold registered_row. simpl. rewrite Hb. simpl.
  rewrite String.eqb_refl. split; reflexivity.
Qed.

Lemma find_one_nothing {D} (p : D -> bool) (c : list D) :
  Mongo.find_one p c = None -> forall y, In y c -> p y = false.
Proof.
  induction c as [|x c IH]; simpl; [tauto|].
  destruct (p x) eqn:E; [discriminate|].
  destruct (Mongo.find_one p c) as [[[pre z] post]|]; [discriminate|].
  intros _ y [<-|Hy]; [exact E | now apply IH].
Qed.

Lemma find_one_only {D K} (p : D -> bool) (k : D -> K) (c pre post : list D) (x : D) :
  Mongo.find_one p c = Some (pre, x, post) ->
  NoDup (map k c) ->
  forall y, In y (pre ++ post) -> k y <> k x.
Proof.
  intros F Hnd y Hy E. apply find_one_split in F. destruct F as [-> _].
  rewrite map_app in Hnd. simpl in Hnd. apply NoDup_remove_2 in Hnd.
  apply Hnd. rewrite <- map_app, <- E. now apply in_map.
Qed.

Lemma is_Device_id (d : string) (x : Mongo.Device.doc) :
  is_Device d x = true <-> Mongo.Device.deviceId x = Val d.
Proof.
  unfold is_Device. rewrite filter_eq_val.
  destruct (Mongo.Device.deviceId x); simpl; split; congruence.
Qed.

Lemma is_Device_others (d : string) (x : Mongo.Device.doc) (l : list Mongo.Device.doc) :
  Mongo.Device.deviceId x = Val d ->
  (forall y, In y l ->
     Mongo.key (Mongo.Device.deviceId y) <> Mongo.key (Mongo.Device.deviceId x)) ->
  forall y, In y l -> is_Device d y = false.
Proof.
  intros Hx H y Hy. destruct (is_Device d y) eqn:E; [|reflexivity].
  apply is_Device_id in E. exfalso. apply (H y Hy). now rewrite E, Hx.
Qed.

(** X2.  Registration in the MongoDB server is an upsert of another kind: the
    store holds one document for the device afterwards, with the reading
    of the clock as last heartbeat, but a field that the registration does
    not carry keeps the value the store had for the device; only for a
    device that was unknown is the document made of the registration
    alone.  The documents of the other devices, and the call logs, are as
    they were. *)
Theorem mongo_register_merges (b : Register.body) (m : Mongo.db) (w : world) (d : string) :
  Register.deviceId b = Val d ->
  NoDup (map (fun x => Mongo.key (Mongo.Device.deviceId x)) (Mongo.devices m)) ->
  let m' := after (Mongo.register b m) w in
  exists x,
    filter (is_Device d) (Mongo.devices m') = [x]
    /\ Mongo.Device.deviceId x = Val d
    /\ Mongo.Device.lastHeartbeat x = Val (clock w (ticks w))
    /\ (forall old, In old (Mongo.devices m) -> Mongo.Device.deviceId old = Val d ->
          Mongo.Device.deviceName x
          = Mongo.set (Register.deviceName b) (Mongo.Device.deviceName old)
          /\ Mongo.Device.phoneNumber x
             = Mongo.set (Register.phoneNumber b) (Mongo.Device.phoneNumber old)
          /\ Mongo.Device.registeredAt x
             = Mongo.set (Register.registeredAt b) (Mongo.Device.registeredAt old))
    /\ (filter (is_Device d) (Mongo.devices m) = [] ->
          Mongo.Device.deviceName x = Register.deviceName b
          /\ Mongo.Device.phoneNumber x = Register.phoneNumber b
          /\ Mongo.Device.registeredAt x = Register.registeredAt b
          /\ Mongo.devices m' = Mongo.devices m ++ [x])
    /\ filter (fun y => negb (is_Device d y)) (Mongo.devices m')
       = filter (fun y => negb (is_Device d y)) (Mongo.devices m)
    /\ Mongo.calllogs m' = Mongo.calllogs m.
Proof.
  intros Hd Hnd. cbv zeta.
  unfold after, Mongo.register, bind, ret, Date_now. simpl.
  unfold Mongo.upsert_device. rewrite Hd. fold (is_Device d).
  destruct (Mongo.find_one (is_Device d) (Mongo.devices m)) as [[[pre old0] post]|] eqn:F.
  - pose proof (find_one_only _ _ _ _ _ _ F Hnd) as Honly.
    apply find_one_split in F. destruct F as [Hc Hp].
    apply is_Device_id in Hp.
    pose proof (is_Device_others d old0 (pre ++ post) Hp Honly) as Hoth.
    eexists. split; [|split; [|split; [|split; [|split; [|split]]]]].
    + rewrite filter_app. simpl.
      rewrite (filter_none (is_Device d) pre), (filter_none (is_Device d) post).
      * simpl.
        replace (is_Device d (Mongo.Device.update _ old0)) with true; [reflexivity|].
        symmetry. apply is_Device_id. simpl. exact Hp.
      * intros y Hy. apply Hoth, in_app_iff. now right.
      * intros y Hy. apply Hoth, in_app_iff. now left.
    + simpl. exact Hp.
    + reflexivity.
    + intros old Hold Hid. rewrite Hc in Hold.
      assert (old = old0) as ->.
      { apply in_app_iff in Hold. destruct Hold as [Hold|[Hold|Hold]]; [|now symmetry|].
        - exfalso. assert (is_Device d old = false) as E
            by (apply Hoth, in_app_iff; now left).
          apply is_Device_id in Hid. congruence.
        - exfalso. assert (is_Device d old = false) as E
            by (apply Hoth, in_app_iff; now right).
          apply is_Device_id in Hid. congruence. }
      simpl. repeat split.
    + intros Hnone. exfalso. rewrite Hc, filter_app in Hnone. simpl in Hnone.
      assert (is_Device d old0 = true) as E by now apply is_Device_id.
      rewrite E in Hnone. destruct (filter (is_Device d) pre); discriminate.
    + rewrite Hc, !filter_app. simpl.
      replace (is_Device d (Mongo.Device.update _ old0)) with true
        by (symmetry; apply is_Device_id; simpl; exact Hp).
      replace (is_Device d old0) with true by (symmetry; now apply is_Device_id).
      reflexivity.
    + reflexivity.
  - pose proof (find_one_nothing _ _ F) as Hno.
    eexists. split; [|split; [|split; [|split; [|split; [|split]]]]].
    + rewrite filter_app. rewrite (filter_none _ _ Hno). simpl.
      replace (is_Device d (Mongo.Device.update _ _)) with true
        by (symmetry; apply is_Device_id; reflexivity).
      reflexivity.
    + reflexivity.
    + reflexivity.
    + intros old Hold Hid. exfalso. apply is_Device_id in Hid.
      rewrite (Hno old Hold) in Hid. discriminate.
    + intros _. simpl.
      destruct (Register.deviceName b), (Register.phoneNumber b), (Register.registeredAt b);
        repeat split.
    + rewrite filter_app. simpl.
      replace (is_Device d (Mongo.Device.update _ _)) with true
        by (symmetry; apply is_Device_id; reflexivity).
      simpl. now rewrite app_nil_r.
    + reflexivity.
Qed.

Lemma mongo_update_heartbeat_registration (q : field string) (ts : field Z)
  (c : list Mongo.Device.doc) :
  map Registration (Mongo.update_heartbeat q ts c) = map Registration c.
Proof.
  unfold Mongo.update_heartbeat.
  destruct (Mongo.find_one _ c) as [[[pre x] post]|] eqn:F; [|reflexivity].
  apply find_one_split in F. destruct F as [-> _].
  rewrite !map_app. reflexivity.
Qed.

(** X4.  A heartbeat in the MongoDB server changes the last heartbeat of the
    document of its device and nothing else: the identity, name, phone
    number and registration time of every document stay, the last
    heartbeat of the other devices stays, and so do the call logs; a
    heartbeat that carries no [timestamp] changes nothing at all. *)
Theorem mongo_heartbeat_only_beats (b : Heartbeat.body) (m : Mongo.db) (d : string) :
  Heartbeat.deviceId b = Val d ->
  NoDup (map (fun x => Mongo.key (Mongo.Device.deviceId x)) (Mongo.devices m)) ->
  let m' := snd (Mongo.heartbeat b m) in
  map Registration (Mongo.devices m') = map Registration (Mongo.devices m)
  /\ map Mongo.Device.lastHeartbeat (Mongo.devices m')
     = map (fun x => if is_Device d x
                     then Mongo.set (Heartbeat.timestamp b) (Mongo.Device.lastHeartbeat x)
                     else Mongo.Device.lastHeartbeat x)
         (Mongo.devices m)
  /\ Mongo.calllogs m' = Mongo.calllogs m
  /\ (Heartbeat.timestamp b = Absent -> m' = m).
Proof.
  intros Hd Hnd. cbv zeta. simpl.
  split; [apply mongo_update_heartbeat_registration|].
  unfold Mongo.update_heartbeat. rewrite Hd. fold (is_Device d).
  destruct (Mongo.find_one (is_Device d) (Mongo.devices m)) as [[[pre x] post]|] eqn:F.
  - pose proof (find_one_only _ _ _ _ _ _ F Hnd) as Honly.
    apply find_one_split in F. destruct F as [Hc Hp].
    pose proof (is_Device_others d x (pre ++ post) (proj1 (is_Device_id d x) Hp) Honly) as Hoth.
    split; [|split; [reflexivity|]].
    + rewrite Hc, !map_app. simpl. rewrite Hp. f_equal; [|f_equal].
      * apply map_ext_in. intros y Hy.
        now rewrite (Hoth y) by (apply in_app_iff; now left).
      * apply map_ext_in. intros y Hy.
        now rewrite (Hoth y) by (apply in_app_iff; now right).
    + intros Hts. rewrite Hts. destruct m as [ds cs]. simpl in *. f_equal.
      rewrite Hc. f_equal. f_equal. now destruct x.
  - pose proof (find_one_nothing _ _ F) as Hno.
    split; [|split; [reflexivity|]].
    + apply map_ext_in. intros y Hy. now rewrite (Hno y Hy).
    + intros _. now destruct m.
Qed.

(** * Listing the devices *)

(** X6.  [GET /api/devices] answers, in both servers, with every stored device
    once, the most recently registered first; a device without
    registration time comes last. *)
Theorem devices_by_registration (s : Sqlite.db) (m : Mongo.db) :
  exists rows docs,
    Sqlite.get_devices s = res_json (JObj [("devices", JArr (map Sqlite.devices.to_json rows))])
    /\ Permutation rows (Sqlite.devices_table s)
    /\ Sorted (fun a b => num_ge (Sqlite.devices.registered_at a)
                            (Sqlite.devices.registered_at b) = true) rows
    /\ Mongo.get_devices m = res_json (JObj [("devices", JArr (map Mongo.Device.to_json docs))])
    /\ Permutation docs (Mongo.devices m)
    /\ Sorted (fun a b => num_ge (Mongo.key (Mongo.Device.registeredAt a))
                            (Mongo.key (Mongo.Device.registeredAt b)) = true) docs.
Proof.
  do 2 eexists. split; [reflexivity|]. split; [apply order_by_perm|].
  split; [apply order_by_sorted; intros a b; apply num_ge_total|].
  split; [reflexivity|]. split; [apply order_by_perm|].
  apply order_by_sorted. intros a b. apply num_ge_total.
Qed.

(** * Synchronisation of a batch *)

Lemma mapM_length {A B} (f : A -> M B) (l : list A) (w : world) :
  List.length (fst (mapM f l w)) = List.length l.
Proof.
  revert w; induction l as [|a l IH]; intros w; simpl; [reflexivity|].
  unfold bind, ret. destruct (f a w) as [b w1]. specialize (IH w1).
  destruct (mapM f l w1) as [bs w2]. simpl in *. now f_equal.
Qed.

Lemma mapM_ext {A B} (f g : A -> M B) (l : list A) (w : world) :
  (forall a w', In a l -> f a w' = g a w') -> mapM f l w = mapM g l w.
Proof.
  revert w; induction l as [|a l IH]; intros w H; simpl; [reflexivity|].
  unfold bind. rewrite (H a w (or_introl eq_refl)).
  destruct (g a w) as [b w1]. rewrite IH; [reflexivity|].
  intros a' w' Ha. apply H. now right.
Qed.

Lemma mapM_map {A B C} (f : B -> M C) (g : A -> B) (l : list A) (w : world) :
  mapM f (map g l) w = mapM (fun a => f (g a)) l w.
Proof.
  revert w; induction l as [|a l IH]; intros w; simpl; [reflexivity|].
  unfold bind. destruct (f (g a) w) as [b w1]. now rewrite IH.
Qed.

Lemma filter_and {A} (p q : A -> bool) (l : list A) :
  filter (fun x => p x && q x) l = filter q (filter p l).
Proof.
  induction l as [|x l IH]; simpl; [reflexivity|].
  destruct (p x); simpl; [destruct (q x); now rewrite IH | exact IH].
Qed.

(** What a run of [INSERT OR REPLACE] leaves in the table: the rows that
    no row of the batch replaces, then the rows of the batch, the last one
    only of those that have the same [id]. *)
Lemma run_all_table (rows t : list Sqlite.call_logs.row) :
  Sqlite.run_all rows t = filter (untouched rows) t ++ last_of_each rows.
Proof.
  revert t; induction rows as [|r rows IH]; intros t; simpl.
  - rewrite app_nil_r. induction t as [|x t IHt]; simpl; [reflexivity|now f_equal].
  - rewrite IH. unfold Sqlite.replace_call_log. rewrite filter_app.
    rewrite <- filter_and. rewrite <- app_assoc. f_equal.
    + apply filter_ext. intros x. unfold untouched. simpl.
      now rewrite negb_orb.
    + simpl. destruct (untouched rows r); reflexivity.
Qed.

Lemma last_of_each_all (rows : list Sqlite.call_logs.row) :
  NoDup (map Sqlite.call_logs.id rows) -> last_of_each rows = rows.
Proof.
  induction rows as [|r rows IH]; simpl; intros H; [reflexivity|].
  inversion H as [|? ? Hr Hrows]; subst.
  assert (untouched rows r = true) as ->.
  { unfold untouched. apply negb_true_iff.
    destruct (existsb _ rows) eqn:E; [|reflexivity].
    apply existsb_exists in E. destruct E as (x & Hx & Hid).
    apply String.eqb_eq in Hid. exfalso. apply Hr. rewrite Hid. now apply in_map. }
  simpl. f_equal. now apply IH.
Qed.

Lemma last_of_each_In (rows : list Sqlite.call_logs.row) (x : Sqlite.call_logs.row) :
  In x (last_of_each rows) -> In x rows.
Proof.
  induction rows as [|r rows IH]; simpl; [tauto|].
  destruct (untouched rows r); simpl; [|tauto].
  intros [H|H]; [now left | right; now apply IH].
Qed.

(** X8.  When the records of a batch get pairwise distinct identities, the
    SQLite server stores them all: the table is then made of the rows that
    were there under other identities, followed by one row for each record
    of the batch, in the order of the batch. *)
Theorem sqlite_sync_stores_distinct (dev : field string) (logs : list Log.t)
  (s : Sqlite.db) (w : world) :
  let rows := fst (mapM (Sqlite.sync_values dev) logs w) in
  NoDup (map Sqlite.call_logs.id rows) ->
  Sqlite.call_logs_table
    (after (Sqlite.sync {| Sync.deviceId := dev; Sync.callLogs := Some logs |} s) w)
  = filter (untouched rows) (Sqlite.call_logs_table s) ++ rows
  /\ List.length rows = List.length logs
  /\ Forall (fun r => Sqlite.call_logs.device_id r = Sqlite.bound dev) rows.
Proof.
  cbv zeta. intros Hnd.
  split; [|split; [apply mapM_length|]].
  - unfold after, Sqlite.sync, bind, ret. simpl.
    destruct (mapM (Sqlite.sync_values dev) logs w) as [rows w'] eqn:E. simpl in *.
    now rewrite run_all_table, last_of_each_all.
  - clear Hnd. revert w; induction logs as [|log logs IH]; intros w; simpl; [constructor|].
    unfold bind, ret.
    assert (Sqlite.call_logs.device_id (fst (Sqlite.sync_values dev log w)) = Sqlite.bound dev)
      as Hdev.
    { unfold Sqlite.sync_values, bind, ret.
      destruct (or_str _ _ w) as [i w1]. destruct (or_num _ _ w1) as [ts w2]. reflexivity. }
    destruct (Sqlite.sync_values dev log w) as [r w1]. specialize (IH w1).
    destruct (mapM (Sqlite.sync_values dev) logs w1) as [rs w2]. simpl in *.
    now constructor.
Qed.

Lemma sync_values_complete (dev : field string) (log : Log.t) (w w' : world) :
  complete log = true ->
  Sqlite.sync_values dev log w = (fst (Sqlite.sync_values dev log w'), w).
Proof.
  unfold complete, Sqlite.sync_values, or_str, or_num, bind, ret. intros H.
  apply andb_true_iff in H. destruct H as [Hi Ht].
  destruct (Log.id log) as [| |i]; try discriminate. rewrite Hi.
  destruct (Log.timestamp log) as [| |z]; try discriminate. rewrite Ht.
  reflexivity.
Qed.

Lemma mapM_complete (dev : field string) (logs : list Log.t) (w w' : world) :
  forallb complete logs = true ->
  mapM (Sqlite.sync_values dev) logs w
  = (fst (mapM (Sqlite.sync_values dev) logs w'), w).
Proof.
  revert w w'; induction logs as [|log logs IH]; intros w w' H; simpl; [reflexivity|].
  simpl in H. apply andb_true_iff in H. destruct H as [Hl Hls].
  unfold bind, ret.
  rewrite (sync_values_complete dev log w w' Hl).
  rewrite (sync_values_complete dev log w' w' Hl).
  rewrite (IH w w' Hls), (IH w' w' Hls). reflexivity.
Qed.

(** X9.  A batch whose records all carry an [id] and a [timestamp] can be sent
    again to the SQLite server: the store after the second synchronisation
    is the store after the first, and neither reads the clock or the random
    source. *)
Theorem sqlite_sync_again (dev : field string) (logs : list Log.t)
  (s : Sqlite.db) (w w' : world) :
  forallb complete logs = true ->
  let b := {| Sync.deviceId := dev; Sync.callLogs := Some logs |} in
  after (Sqlite.sync b (after (Sqlite.sync b s) w)) w' = after (Sqlite.sync b s) w
  /\ world_after (Sqlite.sync b s) w = w.
Proof.
  intros H. cbv zeta. unfold after, world_after, Sqlite.sync, bind, ret. simpl.
  rewrite (mapM_complete dev logs w w H).
  rewrite (mapM_complete dev logs w' w H). simpl.
  split; [|reflexivity]. f_equal.
  set (rows := fst (mapM (Sqlite.sync_values dev) logs w)).
  rewrite !run_all_table. rewrite filter_app, filter_twice.
  rewrite (filter_none (untouched rows) (last_of_each rows)).
  - now rewrite app_nil_r.
  - intros x Hx. apply last_of_each_In in Hx.
    unfold untouched. apply negb_false_iff. apply existsb_exists.
    exists x. split; [exact Hx | apply String.eqb_refl].
Qed.

(** X10.  [POST /api/call-logs] does to the store of the SQLite server what the
    synchronisation of a batch of this one record does, the device of the
    batch being the one the record names; it answers with status 201. *)
Theorem sqlite_add_is_sync_of_one (log : Log.t) (s : Sqlite.db) (w : world) :
  let b := {| Sync.deviceId := Log.deviceId log; Sync.callLogs := Some [log] |} in
  after (Sqlite.add log s) w = after (Sqlite.sync b s) w
  /\ world_after (Sqlite.add log s) w = world_after (Sqlite.sync b s) w
  /\ answer (Sqlite.add log s) w
     = res_status 201 (success_message "Call log added successfully").
Proof.
  cbv zeta. unfold after, world_after, answer, Sqlite.add, Sqlite.sync, bind, ret. simpl.
  unfold bind, ret.
  destruct (Sqlite.sync_values (Log.deviceId log) log w) as [r w1]. simpl.
  repeat split.
Qed.

(** X11.  The synchronisation stamps the device of the batch on every record and
    never reads the [deviceId] that a record carries: changing it in the
    records changes neither the answer, nor the store, nor the world, in
    either server. *)
Theorem sync_ignores_device_of_record (x : field string) (b : Sync.body)
  (s : Sqlite.db) (m : Mongo.db) (w : world) :
  let b' := {| Sync.deviceId := Sync.deviceId b;
               Sync.callLogs := option_map (map (with_device x)) (Sync.callLogs b) |} in
  Sqlite.sync b' s w = Sqlite.sync b s w
  /\ Mongo.sync b' m w = Mongo.sync b m w.
Proof.
  cbv zeta. unfold Sqlite.sync, Mongo.sync, bind, ret. simpl.
  destruct (Sync.callLogs b) as [logs|]; simpl; [|split; reflexivity].
  rewrite !mapM_map, !length_map.
  rewrite (mapM_ext (fun a => Sqlite.sync_values (Sync.deviceId b) (with_device x a))
             (Sqlite.sync_values (Sync.deviceId b))) by reflexivity.
  rewrite (mapM_ext (fun a => Mongo.bulk_op (Sync.deviceId b) (with_device x a))
             (Mongo.bulk_op (Sync.deviceId b))) by reflexivity.
  split; reflexivity.
Qed.

Lemma for_each_objects {B} (f : Log.t -> M B) (logs : list Log.t) (w : world) :
  for_each f (map Some logs) w = (fst (mapM f logs w), true, snd (mapM f logs w)).
Proof.
  revert w; induction logs as [|log logs IH]; intros w; simpl; [reflexivity|].
  unfold bind, ret. destruct (f log w) as [b w1]. rewrite IH.
  destruct (mapM f logs w1) as [bs w2]. reflexivity.
Qed.

Lemma for_each_null {B} (f : Log.t -> M B) (pre : list Log.t) (rest : list (option Log.t))
  (w : world) :
  for_each f (map Some pre ++ None :: rest) w
  = (fst (mapM f pre w), false, snd (mapM f pre w)).
Proof.
  revert w; induction pre as [|log pre IH]; intros w; simpl; [reflexivity|].
  unfold bind, ret. destruct (f log w) as [b w1]. rewrite IH.
  destruct (mapM f pre w1) as [bs w2]. reflexivity.
Qed.

(** X7.  What the synchronisation answers to each kind of body.  Without
    an array it answers with status 400 and touches nothing.  An array of
    objects is handled as [sync] says: the SQLite server answers with
    status 200 and the number of records it was sent, and an empty array
    stores nothing.  An array that holds [null] makes the handlers throw
    when they read the [id] of that element: the SQLite server lets the
    exception escape after it has stored the records that precede the
    element, the MongoDB server catches it, answers with status 500 and
    stores nothing.  The devices are never changed. *)
Theorem sync_answers (dev : field string) (s : Sqlite.db) (m : Mongo.db) (w : world) :
  (sqlite_sync_array dev None s w = (Answered (error 400 "Invalid call logs data"), s, w)
   /\ mongo_sync_array dev None m w = (Answered (error 400 "Invalid call logs data"), m, w))
  /\ (forall logs,
        let b := {| Sync.deviceId := dev; Sync.callLogs := Some logs |} in
        sqlite_sync_array dev (Some (map Some logs)) s w
        = (Answered (answer (Sqlite.sync b s) w), after (Sqlite.sync b s) w,
           world_after (Sqlite.sync b s) w)
        /\ mongo_sync_array dev (Some (map Some logs)) m w
           = (Answered (answer (Mongo.sync b m) w), after (Mongo.sync b m) w,
              world_after (Mongo.sync b m) w)
        /\ answer (Sqlite.sync b s) w
           = res_json (success_message
                         ("Synced " +++ show_nat (List.length logs) +++ " call logs"))
        /\ Sqlite.devices_table (after (Sqlite.sync b s) w) = Sqlite.devices_table s
        /\ Mongo.devices (after (Mongo.sync b m) w) = Mongo.devices m)
  /\ (sqlite_sync_array dev (Some []) s w
      = (Answered (res_json (success_message "Synced 0 call logs")), s, w)
      /\ mongo_sync_array dev (Some []) m w
         = (Answered (res_json (success_message "Synced 0 call logs")), m, w))
  /\ (forall pre rest,
        let b := {| Sync.deviceId := dev; Sync.callLogs := Some pre |} in
        sqlite_sync_array dev (Some (map Some pre ++ None :: rest)) s w
        = (Thrown, after (Sqlite.sync b s) w, world_after (Sqlite.sync b s) w)
        /\ mongo_sync_array dev (Some (map Some pre ++ None :: rest)) m w
           = (Answered (error 500 "Failed to sync call logs"), m,
              snd (mapM (Mongo.bulk_op dev) pre w))).
Proof.
  split; [split; reflexivity|]. split; [|split].
  - intros logs. cbv zeta.
    unfold sqlite_sync_array, mongo_sync_array, Sqlite.sync, Mongo.sync,
      answer, after, world_after, bind, ret. simpl.
    rewrite !for_each_objects, !length_map.
    destruct (mapM (Sqlite.sync_values dev) logs w) as [rows w1].
    destruct (mapM (Mongo.bulk_op dev) logs w) as [ops w2]. simpl.
    destruct (Mongo.bulk_write ops (Mongo.calllogs m)) as [[|] c]; simpl; repeat split.
  - unfold sqlite_sync_array, mongo_sync_array, bind, ret. simpl.
    destruct s, m. split; reflexivity.
  - intros pre rest. cbv zeta.
    unfold sqlite_sync_array, mongo_sync_array, Sqlite.sync,
      after, world_after, bind, ret. simpl.
    rewrite !for_each_null.
    destruct (mapM (Sqlite.sync_values dev) pre w) as [rows w1].
    destruct (mapM (Mongo.bulk_op dev) pre w) as [ops w2]. simpl.
    split; reflexivity.
Qed.








(** * Reading the call logs *)








(** X17.  The two servers read a limit of zero in opposite ways: the SQLite
    server returns no record, the MongoDB server returns every record that
    meets the filters. *)
Theorem limit_zero (q : Query.t) (s : Sqlite.db) (m : Mongo.db) :
  parsed_limit (Query.limit q) = Some 0 ->
  Sqlite.get_call_logs q s = res_json (JObj [("callLogs", JArr []); ("count", JNum 0)])
  /\ (forall d, In d (Mongo.calllogs m) -> meets_doc q d ->
        status (Mongo.get_call_logs q m) = 200
        /\ In (Mongo.CallLog.to_json d)
             (elements (prop "callLogs" (body (Mongo.get_call_logs q m))))).
Proof.
  intros Hn. split.
  - unfold Sqlite.get_call_logs. rewrite Hn. reflexivity.
  - intros d Hd Hm. apply (mongo_returns q 0 m d Hn); trivial. now left.
Qed.


(** * What every request leaves alone *)

(** X19.  A request writes only where its handler is meant to: the devices
    change under registration, heartbeat and clearing alone, the call logs
    under synchronisation, addition and clearing alone, in both servers;
    and a [GET] request changes neither the store nor the world. *)
Theorem requests_keep_to_their_tables (rq : request) (s : Sqlite.db) (m : Mongo.db) (w : world) :
  (writes_devices rq = false ->
     Sqlite.devices_table (after (Sqlite.app rq s) w) = Sqlite.devices_table s
     /\ Mongo.devices (after (Mongo.app rq m) w) = Mongo.devices m)
  /\ (writes_call_logs rq = false ->
        Sqlite.call_logs_table (after (Sqlite.app rq s) w) = Sqlite.call_logs_table s
        /\ Mongo.calllogs (after (Mongo.app rq m) w) = Mongo.calllogs m)
  /\ (is_get rq = true ->
        after (Sqlite.app rq s) w = s /\ world_after (Sqlite.app rq s) w = w
        /\ after (Mongo.app rq m) w = m /\ world_after (Mongo.app rq m) w = w).
Proof.
  unfold after, world_after.
  destruct rq as [b|b| |b|b|q|p l| |]; simpl;
    (split; [|split]); intros H; try discriminate H;
      unfold Sqlite.app, Mongo.app, bind, ret; simpl; try (repeat split; fail).
  - unfold Sqlite.sync, Mongo.sync, bind, ret.
    destruct (Sync.callLogs b) as [logs|]; [|split; reflexivity].
    destruct (mapM (Sqlite.sync_values _) logs w) as [rows w1].
    destruct (mapM (Mongo.bulk_op _) logs w) as [ops w2].
    destruct (Mongo.bulk_write ops _) as [[|] c]; split; reflexivity.
  - unfold Sqlite.add, bind, ret.
    destruct (Sqlite.sync_values _ b w) as [r w1]. split; reflexivity.
Qed.

Lemma replace_device_keys (r : Sqlite.devices.row) (t : list Sqlite.devices.row) :
  (forall d, (List.length (filter (is_device d) t) <= 1)%nat) ->
  forall d, (List.length (filter (is_device d) (Sqlite.replace_device r t)) <= 1)%nat.
Proof.
  intros H d.
  destruct (Sqlite.devices.device_id r) as [d0|] eqn:E.
  - destruct (String.eqb d0 d) eqn:Ed.
    + apply String.eqb_eq in Ed. subst d0. rewrite replace_device_own by exact E.
      simpl. lia.
    + apply String.eqb_neq in Ed. rewrite replace_device_others; [apply H|].
      rewrite E. congruence.
  - rewrite replace_device_others; [apply H|]. rewrite E. discriminate.
Qed.

Lemma update_heartbeat_keys (ts : option Z) (dev : option string)
  (t : list Sqlite.devices.row) (d : string) :
  List.length (filter (is_device d) (Sqlite.update_heartbeat ts dev t))
  = List.length (filter (is_device d) t).
Proof.
  unfold is_device. induction t as [|r t IH]; simpl; [reflexivity|].
  destruct (Sqlite.sql_eq (Sqlite.devices.device_id r) dev); simpl;
    destruct (Sqlite.sql_eq (Sqlite.devices.device_id r) (Some d)); simpl;
      now rewrite IH.
Qed.

Lemma key_of_filter {A} (eqb : A -> A -> bool) (q f : field A) :
  (forall a b, eqb a b = true <-> a = b) ->
  Mongo.filter_eq eqb q f = false -> Mongo.key f <> Mongo.key (Mongo.of_filter q).
Proof.
  intros Heq. destruct q as [| |a], f as [| |b]; simpl; try discriminate; try congruence.
  intros H E. inversion E; subst. assert (eqb a a = true) by now apply Heq. congruence.
Qed.

Lemma upsert_device_keys (q : field string) (u : Mongo.Device.doc) (c : list Mongo.Device.doc) :
  Mongo.Device.deviceId u = Absent ->
  NoDup (map (fun x => Mongo.key (Mongo.Device.deviceId x)) c) ->
  NoDup (map (fun x => Mongo.key (Mongo.Device.deviceId x)) (Mongo.upsert_device q u c)).
Proof.
  intros Hu Hnd. unfold Mongo.upsert_device.
  destruct (Mongo.find_one _ c) as [[[pre d] post]|] eqn:F.
  - apply find_one_split in F. destruct F as [-> _].
    rewrite map_app in *. simpl in *. now rewrite Hu.
  - pose proof (find_one_nothing _ _ F) as Hno.
    rewrite map_app. simpl. rewrite Hu. simpl.
    apply (NoDup_Add (Add_app _ _ [])). rewrite app_nil_r. split; [exact Hnd|].
    intros Hin. apply in_map_iff in Hin. destruct Hin as (y & Hk & Hy).
    apply (key_of_filter String.eqb q (Mongo.Device.deviceId y) String.eqb_eq (Hno y Hy)).
    exact Hk.
Qed.

(** X20.  The keys hold in every state that the servers can reach: a store with
    one call log per [id] and one device per identity still has them after
    any request, and the empty stores have them. *)
Theorem keys_are_kept (rq : request) (s : Sqlite.db) (m : Mongo.db) (w : world) :
  sqlite_keys s -> mongo_keys m ->
  sqlite_keys (after (Sqlite.app rq s) w)
  /\ mongo_keys (after (Mongo.app rq m) w)
  /\ sqlite_keys Sqlite.empty
  /\ mongo_keys Mongo.empty.
Proof.
  intros [Hs1 Hs2] [Hm1 Hm2].
  assert (sqlite_keys Sqlite.empty /\ mongo_keys Mongo.empty) as [He1 He2].
  { unfold sqlite_keys, mongo_keys. simpl.
    split; [split; [constructor | intros d; lia] | split; constructor]. }
  split; [|split; [|split; assumption]].
  - destruct rq as [b|b| |b|b|q|p l| |];
      unfold after, Sqlite.app, bind, ret; simpl; try (split; assumption);
        try exact He1.
    + unfold Sqlite.register, bind, ret, Date_now. simpl. split; [exact Hs1|].
      simpl. now apply replace_device_keys.
    + split; [exact Hs1|]. simpl. intros d. rewrite update_heartbeat_keys. apply Hs2.
    + pose proof (sqlite_sync_unique b s w Hs1) as Hu.
      unfold after in Hu. destruct (Sqlite.sync b s w) as [[a s'] w'] eqn:E. simpl in *.
      split; [exact Hu|].
      assert (Sqlite.devices_table s' = Sqlite.devices_table s) as ->; [|exact Hs2].
      unfold Sqlite.sync, bind, ret in E.
      destruct (Sync.callLogs b) as [logs|].
      * destruct (mapM _ logs w) as [rows w1]. inversion E. reflexivity.
      * inversion E. reflexivity.
    + unfold Sqlite.add, bind, ret.
      destruct (Sqlite.sync_values _ b w) as [r w1]. simpl. split; [|exact Hs2].
      simpl. now apply replace_call_log_spec.
  - destruct rq as [b|b| |b|b|q|p l| |];
      unfold after, Mongo.app, bind, ret; simpl; try (split; assumption).
    + unfold Mongo.register, bind, ret, Date_now. simpl. split; [exact Hm1|].
      simpl. now apply upsert_device_keys.
    + split; [exact Hm1|]. simpl.
      replace (map (fun x => Mongo.key (Mongo.Device.deviceId x))
                 (Mongo.update_heartbeat (Heartbeat.deviceId b) (Heartbeat.timestamp b)
                    (Mongo.devices m)))
        with (map (fun r : field string * field string * field string * field Z =>
                     Mongo.key (fst (fst (fst r))))
                (map Registration
                   (Mongo.update_heartbeat (Heartbeat.deviceId b) (Heartbeat.timestamp b)
                      (Mongo.devices m))))
        by (rewrite map_map; reflexivity).
      rewrite mongo_update_heartbeat_registration, map_map. exact Hm2.
    + pose proof (mongo_sync_unique b m w Hm1) as Hu.
      unfold after in Hu. destruct (Mongo.sync b m w) as [[a m'] w'] eqn:E. simpl in *.
      split; [exact Hu|].
      assert (Mongo.devices m' = Mongo.devices m) as ->; [|exact Hm2].
      unfold Mongo.sync, bind, ret in E.
      destruct (Sync.callLogs b) as [logs|].
      * destruct (mapM _ logs w) as [ops w1].
        destruct (Mongo.bulk_write ops _) as [[|] c]; inversion E; reflexivity.
      * inversion E. reflexivity.
Qed.

(** * Statistics after a synchronisation *)

(** X21.  When the records of a batch get pairwise distinct identities that the
    store does not hold yet, the statistics of the SQLite server count as
    many call logs more as the batch has records. *)
Theorem sqlite_sync_raises_total (dev : field string) (logs : list Log.t)
  (s : Sqlite.db) (w : world) :
  let rows := fst (mapM (Sqlite.sync_values dev) logs w) in
  let s' := after (Sqlite.sync {| Sync.deviceId := dev; Sync.callLogs := Some logs |} s) w in
  NoDup (map Sqlite.call_logs.id rows) ->
  (forall x, In x (Sqlite.call_logs_table s) -> untouched rows x = true) ->
  prop "totalCallLogs" (body (Sqlite.statistics s'))
  = Some (JNum (Z.of_nat (Sqlite.total_call_logs s) + Z.of_nat (List.length logs)))
  /\ prop "totalDevices" (body (Sqlite.statistics s'))
     = prop "totalDevices" (body (Sqlite.statistics s)).
Proof.
  cbv zeta. intros Hnd Hnew.
  pose proof (mapM_length (Sqlite.sync_values dev) logs w) as Hlen.
  unfold after, Sqlite.sync, bind, ret. simpl.
  destruct (mapM (Sqlite.sync_values dev) logs w) as [rows w'] eqn:E. simpl in *.
  unfold Sqlite.total_call_logs. simpl.
  rewrite run_all_table, last_of_each_all, filter_every by assumption.
  rewrite length_app, Hlen, Nat2Z.inj_add. split; reflexivity.
Qed.

Lemma sqlite_sync_raises_total_witness :
  prop "totalCallLogs"
    (body (Sqlite.statistics
             (after (Sqlite.sync {| Sync.deviceId := Val "A1";
                                    Sync.callLogs := Some [call_555] |} sqlite_A1_c1)
                (world_at t0 same_thousandth))))
  = Some (JNum (Z.of_nat (Sqlite.total_call_logs sqlite_A1_c1) + Z.of_nat 1)).
Proof.
  apply (sqlite_sync_raises_total (Val "A1") [call_555] sqlite_A1_c1
           (world_at t0 same_thousandth)).
  - constructor; [intros [] | constructor].
  - intros x [<-|[]]. reflexivity.
Defined.

(** * The further statements at work on the scenarios *)


Lemma sqlite_register_then_heartbeat_witness :
  map Sqlite.devices.last_heartbeat
    (filter (is_device "A1")
       (Sqlite.devices_table
          (snd (Sqlite.heartbeat heartbeat_A1
                  (after (Sqlite.register device_A1 Sqlite.empty) (world_at t0 []))))))
  = [Some 5000].
Proof.
  apply (sqlite_register_then_heartbeat device_A1 heartbeat_A1 Sqlite.empty
           (world_at t0 []) "A1"); reflexivity.
Defined.

Lemma mongo_A1_keys :
  NoDup (map (fun x => Mongo.key (Mongo.Device.deviceId x)) (Mongo.devices mongo_A1_c1)).
Proof. constructor; [intros [] | constructor]. Defined.

Lemma mongo_c1_keys :
  NoDup (map (fun o => Mongo.key (Mongo.CallLog.id o)) (Mongo.calllogs mongo_A1_c1)).
Proof. constructor; [intros [] | constructor]. Defined.

Lemma mongo_register_merges_witness :
  exists x,
    filter (is_Device "A1")
      (Mongo.devices (after (Mongo.register device_A1 mongo_A1_c1) (world_at t0 []))) = [x]
    /\ Mongo.Device.lastHeartbeat x = Val t0.
Proof.
  destruct (mongo_register_merges device_A1 mongo_A1_c1 (world_at t0 []) "A1"
              eq_refl mongo_A1_keys) as (x & Hx & _ & Hb & _).
  exists x. split; [exact Hx | exact Hb].
Defined.

Lemma mongo_heartbeat_only_beats_witness :
  map Registration (Mongo.devices (snd (Mongo.heartbeat heartbeat_A1 mongo_A1_c1)))
  = map Registration (Mongo.devices mongo_A1_c1).
Proof.
  apply (mongo_heartbeat_only_beats heartbeat_A1 mongo_A1_c1 "A1" eq_refl mongo_A1_keys).
Defined.

Lemma sqlite_sync_stores_distinct_witness :
  map Sqlite.call_logs.id
    (Sqlite.call_logs_table
       (after (Sqlite.sync {| Sync.deviceId := Val "A1";
                              Sync.callLogs := Some [c2_first; c1_again] |}
                 sqlite_c1_c3) (world_at t0 [])))
  = ["c3"; "c2"; "c1"].
Proof.
  assert (NoDup (map Sqlite.call_logs.id
                   (fst (mapM (Sqlite.sync_values (Val "A1")) [c2_first; c1_again]
                           (world_at t0 [])))))
    as Hnd.
  { constructor.
    - intros [H|[]]. discriminate H.
    - constructor; [intros [] | constructor]. }
  rewrite (proj1 (sqlite_sync_stores_distinct (Val "A1") [c2_first; c1_again]
                    sqlite_c1_c3 (world_at t0 []) Hnd)).
  reflexivity.
Defined.

Lemma sqlite_sync_again_witness :
  after (Sqlite.sync {| Sync.deviceId := Val "A1"; Sync.callLogs := Some [c1_first; c1_again] |}
           (after (Sqlite.sync {| Sync.deviceId := Val "A1";
                                  Sync.callLogs := Some [c1_first; c1_again] |}
                     sqlite_A1) (world_at t0 [])))
    (world_at 0 [])
  = after (Sqlite.sync {| Sync.deviceId := Val "A1"; Sync.callLogs := Some [c1_first; c1_again] |}
             sqlite_A1) (world_at t0 []).
Proof.
  apply (sqlite_sync_again (Val "A1") [c1_first; c1_again] sqlite_A1
           (world_at t0 []) (world_at 0 [])).
  reflexivity.
Defined.

Lemma sync_answers_witness :
  sqlite_sync_array (Val "A1") (Some [Some c2_first; None; Some c1_again]) sqlite_A1_c1
    (world_at t0 [])
  = (Thrown, sqlite_c1_c2, world_at t0 [])
  /\ mongo_sync_array (Val "A1") (Some [Some c2_first; None; Some c1_again]) mongo_A1_c1
       (world_at t0 [])
     = (Answered (error 500 "Failed to sync call logs"), mongo_A1_c1, world_at t0 []).
Proof.
  exact (proj2 (proj2 (proj2 (sync_answers (Val "A1") sqlite_A1_c1 mongo_A1_c1
                                (world_at t0 []))))
           [c2_first] [Some c1_again]).
Defined.





Lemma limit_zero_witness :
  Sqlite.get_call_logs at_most_zero sqlite_A1_c1
  = res_json (JObj [("callLogs", JArr []); ("count", JNum 0)])
  /\ In (Mongo.CallLog.to_json (doc_c1 "A1"))
       (elements (prop "callLogs" (body (Mongo.get_call_logs at_most_zero mongo_A1_c1)))).
Proof.
  destruct (limit_zero at_most_zero sqlite_A1_c1 mongo_A1_c1 eq_refl) as (Hs & Hm).
  split; [exact Hs|].
  apply (Hm (doc_c1 "A1")).
  - left. reflexivity.
  - apply satisfies_meets. reflexivity.
Defined.


Lemma requests_keep_to_their_tables_witness :
  after (Sqlite.app Statistics sqlite_A1_c1) (world_at t0 []) = sqlite_A1_c1
  /\ Mongo.devices (after (Mongo.app (CallLogsSync (batch "Z9" [c1_again])) mongo_A1_c1)
                      (world_at t0 []))
     = Mongo.devices mongo_A1_c1.
Proof.
  split.
  - apply (proj2 (proj2 (requests_keep_to_their_tables Statistics sqlite_A1_c1 mongo_A1_c1
                           (world_at t0 [])))).
    reflexivity.
  - apply (proj1 (requests_keep_to_their_tables (CallLogsSync (batch "Z9" [c1_again]))
                    sqlite_A1_c1 mongo_A1_c1 (world_at t0 []))).
    reflexivity.
Defined.

Lemma keys_are_kept_witness :
  sqlite_keys (after (Sqlite.app (CallLogsSync (batch "A1" [call_555; c1_again])) sqlite_A1_c1)
                 (world_at t0 same_thousandth))
  /\ mongo_keys (after (Mongo.app (CallLogsSync (batch "A1" [call_555; c1_again])) mongo_A1_c1)
                   (world_at t0 same_thousandth)).
Proof.
  destruct (keys_are_kept (CallLogsSync (batch "A1" [call_555; c1_again]))
              sqlite_A1_c1 mongo_A1_c1 (world_at t0 same_thousandth)) as (Hs & Hm & _).
  - split.
    + constructor; [intros [] | constructor].
    + intros d. simpl. destruct (is_device d _); simpl; lia.
  - split; [exact mongo_c1_keys | exact mongo_A1_keys].
  - split; [exact Hs | exact Hm].
Defined.

Lemma sqlite_identities_run_out_witness :
  (List.length (Sqlite.call_logs_table
                  (after (Sqlite.sync (batch "A1" [call_555; call_555]) sqlite_A1_c1)
                     (world_at t0 same_thousandth)))
   <= List.length (Sqlite.call_logs_table sqlite_A1_c1) + 1000)%nat.
Proof.
  apply (sqlite_identities_run_out "A1" [call_555; call_555] sqlite_A1_c1
           (world_at t0 same_thousandth) t0).
  - intros n. reflexivity.
  - intros [|[|n]]; simpl; try lia. destruct n; simpl; lia.
  - repeat constructor.
  - constructor; [intros [] | constructor].
Defined.
